(** * A shallow embedding of the order, product and user services of the
    ecommerce-microservices repository.

    Money amounts are Python floats in the source, i.e. IEEE-754 binary64
    numbers; they are modelled with the Standard Library's [spec_float]
    at precision 53 and exponent bound 1024, whose operations round to
    nearest-even exactly as the hardware does. *)

From Stdlib Require Import ZArith Bool List Sorted Permutation.
From Stdlib Require Import Floats.SpecFloat.
From stdpp Require Import base gmap strings list fin_maps pretty.

Local Open Scope Z_scope.

(** ** Python floats *)
Module PyFloat.

Definition float := spec_float.

Definition prec : Z := 53.
Definition emax : Z := 1024.

Definition fadd (x y : float) : float := SFadd prec emax x y.
Definition fsub (x y : float) : float := SFsub prec emax x y.
Definition fmul (x y : float) : float := SFmul prec emax x y.
Definition fdiv (x y : float) : float := SFdiv prec emax x y.
Definition flt (x y : float) : bool := SFltb x y.
Definition fle (x y : float) : bool := SFleb x y.
Definition feq (x y : float) : bool := SFeqb x y.

(** [float(n)] for a Python int [n] (exact for |n| < 2^53, rounded otherwise). *)
Definition of_Z (n : Z) : float := binary_normalize prec emax n 0 false.

Definition zero : float := S754_zero false.
Definition nan : float := S754_nan.
Definition inf : float := S754_infinity false.

(** The Python literal [n / 10^k] written in decimal, e.g. [lit 8 2] is
    [0.08]: the double nearest to the exact decimal value, i.e. the
    correctly rounded quotient of two exactly representable integers. *)
Definition lit (n : Z) (k : nat) : float := fdiv (of_Z n) (of_Z (10 ^ Z.of_nat k)).

(** Round-half-to-even of the exact rational [num / 2^sh]. *)
Definition div_pow2_half_even (num : Z) (sh : positive) : Z :=
  let d := Z.pow 2 (Zpos sh) in
  let q := num / d in
  let r := num mod d in
  match Z.compare (2 * r) d with
  | Lt => q
  | Gt => q + 1
  | Eq => if Z.even q then q else q + 1
  end.

(** The integer [n] nearest (ties to even) to [100 * m * 2^e]: the digits
    Python's [round(x, 2)] keeps for [x = m * 2^e]. *)
Definition hundredths (m : positive) (e : Z) : Z :=
  match e with
  | Zpos p => Zpos m * 100 * Z.pow 2 (Zpos p)
  | Z0 => Zpos m * 100
  | Zneg p => div_pow2_half_even (Zpos m * 100) p
  end.

(** CPython's [round(x, 2)] on a float: NaN and infinities are returned
    unchanged; otherwise the exact binary value is rounded to two decimal
    digits (ties to even, [_Py_dg_dtoa] mode 3) and the decimal string,
    keeping the sign, is read back with correct rounding ([_Py_dg_strtod]). *)
Definition py_round2 (x : float) : float :=
  match x with
  | S754_finite s m e =>
      match hundredths m e with
      | Zpos n => fdiv (S754_finite s n 0) (of_Z 100)
      | _ => S754_zero s
      end
  | _ => x
  end.

(** Python's builtin [max(a, b)]: the later argument wins only when it is
    strictly greater ([b > a]). *)
Definition py_max (a b : float) : float := if flt a b then b else a.

(** Python truthiness of a float: non-zero (NaN is truthy). *)
Definition truthy (x : float) : bool := negb (feq x zero).

End PyFloat.

Import PyFloat.

(** ** Shared runtime: exceptions, the persisted world, and a state/exception monad *)

(** HTTP status codes used by the services ([fastapi.status]). *)
Definition HTTP_400_BAD_REQUEST : Z := 400.
Definition HTTP_401_UNAUTHORIZED : Z := 401.
Definition HTTP_403_FORBIDDEN : Z := 403.
Definition HTTP_404_NOT_FOUND : Z := 404.
Definition HTTP_409_CONFLICT : Z := 409.
Definition HTTP_500_INTERNAL_SERVER_ERROR : Z := 500.

(** A raised Python exception: FastAPI's [HTTPException] or any other error
    (KeyError, ValidationError, a storage failure, ...). *)
Inductive Exc :=
  | HTTPException (status_code : Z) (detail : string)
  | PyError (msg : string).

Inductive Res (A : Type) :=
  | Ok (a : A)
  | Raise (e : Exc).
Arguments Ok {A} a.
Arguments Raise {A} e.

(** Python truthiness of an [Optional[str]]: [None] and [""] are falsy. *)
Definition str_truthy (s : option string) : bool :=
  match s with
  | Some v => negb (String.eqb v "")
  | None => false
  end.

(** [datetime.isoformat()] of a timestamp; timestamps are ticks of a clock. *)
Definition timestamp := Z.
Definition isoformat (t : timestamp) : string := pretty t.

(** ** Order service: models ([app/models/order.py]) *)

Inductive OrderStatus :=
  | PENDING | CONFIRMED | PROCESSING | SHIPPED | DELIVERED | CANCELLED | REFUNDED.

Inductive PaymentStatus :=
  | PAYMENT_PENDING | PAID | FAILED | PAYMENT_REFUNDED.

(** The enum value, as [f"{order.status}"] prints it. *)
Definition OrderStatus_value (s : OrderStatus) : string :=
  match s with
  | PENDING => "pending" | CONFIRMED => "confirmed" | PROCESSING => "processing"
  | SHIPPED => "shipped" | DELIVERED => "delivered" | CANCELLED => "cancelled"
  | REFUNDED => "refunded"
  end.

Definition OrderStatus_eqb (a b : OrderStatus) : bool :=
  match a, b with
  | PENDING, PENDING | CONFIRMED, CONFIRMED | PROCESSING, PROCESSING
  | SHIPPED, SHIPPED | DELIVERED, DELIVERED | CANCELLED, CANCELLED
  | REFUNDED, REFUNDED => true
  | _, _ => false
  end.

(** [product_snapshot] of an order line. *)
Record ProductSnapshot := {
  snap_name : string;
  snap_description : string;
  snap_price : float;
  snap_category_name : option string;
  snap_image_urls : list string
}.

Record OrderItem := {
  product_id : string;
  product_name : string;
  product_sku : option string;
  unit_price : float;
  quantity : Z;
  total_price : float;
  product_snapshot : ProductSnapshot
}.

(** [OrderItem(...)]: [quantity] is checked against [gt=0] and the
    [calculate_total_price] validator replaces the supplied [total_price]
    by [round(unit_price * quantity, 2)]. A failed check raises pydantic's
    ValidationError. *)
Definition OrderItem_new (pid name : string) (sku : option string) (price : float)
    (qty : Z) (supplied_total : float) (snap : ProductSnapshot) : Res OrderItem :=
  if Z.ltb 0 qty then
    Ok {| product_id := pid; product_name := name; product_sku := sku;
          unit_price := price; quantity := qty;
          total_price := py_round2 (fmul price (of_Z qty));
          product_snapshot := snap |}
  else Raise (PyError "ValidationError: quantity must be greater than 0").

Record ShippingAddress := {
  full_name : string;
  address_line_1 : string;
  address_line_2 : option string;
  city : string;
  state : string;
  postal_code : string;
  country : string;
  phone : option string
}.

Record Order := {
  order_number : string;
  user_id : string;
  user_email : string;
  items : list OrderItem;
  subtotal : float;
  tax_amount : float;
  shipping_cost : float;
  discount_amount : float;
  total_amount : float;
  status : OrderStatus;
  payment_status : PaymentStatus;
  shipping_address : ShippingAddress;
  shipping_method : option string;
  tracking_number : option string;
  payment_method : option string;
  payment_transaction_id : option string;
  created_at : timestamp;
  updated_at : timestamp;
  confirmed_at : option timestamp;
  shipped_at : option timestamp;
  delivered_at : option timestamp;
  notes : option string
}.

(** The keyword arguments [order_data] passed to [Order]; [total_amount] and
    [subtotal] are supplied but pass through the validators. *)
Record OrderArgs := {
  a_order_number : string;
  a_user_id : string;
  a_user_email : string;
  a_items : list OrderItem;
  a_subtotal : float;
  a_tax_amount : float;
  a_shipping_cost : float;
  a_discount_amount : float;
  a_total_amount : float;
  a_status : OrderStatus;
  a_payment_status : PaymentStatus;
  a_shipping_address : ShippingAddress;
  a_shipping_method : option string;
  a_payment_method : option string;
  a_notes : option string
}.

(** Python's [sum(item.total_price for item in items)]: starts at the int 0. *)
Definition sum_total_price (l : list OrderItem) : float :=
  fold_left (fun acc it => fadd acc (total_price it)) l zero.

(** [calculate_subtotal]: recomputed from the items when there are any,
    otherwise [v or 0]. *)
Definition calculate_subtotal (v : float) (its : list OrderItem) : float :=
  match its with
  | [] => if truthy v then v else zero
  | _ => py_round2 (sum_total_price its)
  end.

(** [calculate_total_amount]: [round(max(total, 0), 2)] with
    [total = subtotal + tax_amount + shipping_cost - discount_amount],
    reading the already validated fields. *)
Definition calculate_total_amount (v subtotal tax_amount shipping_cost discount_amount : float)
    : float :=
  let total := fsub (fadd (fadd subtotal tax_amount) shipping_cost) discount_amount in
  py_round2 (py_max total zero).

(** [Order] on the [order_data] keyword arguments with its validators run in field order; the
    [default_factory] timestamps are passed in ([created_at], [updated_at]). *)
Definition Order_new (a : OrderArgs) (created updated : timestamp) : Order :=
  let sub := calculate_subtotal (a_subtotal a) (a_items a) in
  {| order_number := a_order_number a; user_id := a_user_id a;
     user_email := a_user_email a; items := a_items a;
     subtotal := sub; tax_amount := a_tax_amount a;
     shipping_cost := a_shipping_cost a; discount_amount := a_discount_amount a;
     total_amount := calculate_total_amount (a_total_amount a) sub (a_tax_amount a)
                       (a_shipping_cost a) (a_discount_amount a);
     status := a_status a; payment_status := a_payment_status a;
     shipping_address := a_shipping_address a;
     shipping_method := a_shipping_method a; tracking_number := None;
     payment_method := a_payment_method a; payment_transaction_id := None;
     created_at := created; updated_at := updated;
     confirmed_at := None; shipped_at := None; delivered_at := None;
     notes := a_notes a |}.

(** Python's [order.total_amount = v] style assignments on a loaded order
    (no assignment validation). *)
Inductive OrderAssign :=
  | set_status (s : OrderStatus)
  | set_updated_at (t : timestamp)
  | set_confirmed_at (t : timestamp)
  | set_shipped_at (t : timestamp)
  | set_delivered_at (t : timestamp)
  | set_notes (n : option string).

Definition assign (o : Order) (f : OrderAssign) : Order :=
  let '(st, up, ca, sa, da, nt) :=
    match f with
    | set_status s => (s, updated_at o, confirmed_at o, shipped_at o, delivered_at o, notes o)
    | set_updated_at t => (status o, t, confirmed_at o, shipped_at o, delivered_at o, notes o)
    | set_confirmed_at t => (status o, updated_at o, Some t, shipped_at o, delivered_at o, notes o)
    | set_shipped_at t => (status o, updated_at o, confirmed_at o, Some t, delivered_at o, notes o)
    | set_delivered_at t => (status o, updated_at o, confirmed_at o, shipped_at o, Some t, notes o)
    | set_notes n => (status o, updated_at o, confirmed_at o, shipped_at o, delivered_at o, n)
    end in
  {| order_number := order_number o; user_id := user_id o; user_email := user_email o;
     items := items o; subtotal := subtotal o; tax_amount := tax_amount o;
     shipping_cost := shipping_cost o; discount_amount := discount_amount o;
     total_amount := total_amount o; status := st; payment_status := payment_status o;
     shipping_address := shipping_address o; shipping_method := shipping_method o;
     tracking_number := tracking_number o; payment_method := payment_method o;
     payment_transaction_id := payment_transaction_id o;
     created_at := created_at o; updated_at := up; confirmed_at := ca;
     shipped_at := sa; delivered_at := da; notes := nt |}.

(** [Order.is_cancellable] and [Order.is_editable]. *)
Definition is_cancellable (o : Order) : bool :=
  match status o with PENDING | CONFIRMED | PROCESSING => true | _ => false end.
Definition is_editable (o : Order) : bool :=
  match status o with PENDING | CONFIRMED => true | _ => false end.

(** [Order.get_item_count]. *)
Definition get_item_count (o : Order) : Z := fold_left (fun n it => n + quantity it) (items o) 0.

(** ** Event payloads: the JSON values of the event dictionaries *)
#[warnings="-register-all"]
Inductive jv :=
  | JStr (s : string)
  | JNum (f : float)
  | JInt (z : Z)
  | JNull
  | JList (l : list jv)
  | JObj (l : list (string * jv)).

Definition jopt (s : option string) : jv := match s with Some v => JStr v | None => JNull end.

(** Key lookup in an event dictionary. *)
Fixpoint dlookup (d : list (string * jv)) (k : string) : option jv :=
  match d with
  | [] => None
  | (k', v) :: d' => if String.eqb k k' then Some v else dlookup d' k
  end.

(** [dict.get(k)], whose default is [None]. *)
Definition dget (d : list (string * jv)) (k : string) : jv := default JNull (dlookup d k).

(** A message handed to the broker. *)
Record Event := { ev_topic : string; ev_value : jv; ev_key : option string }.

(** ** The persisted world of the order service *)
Record World := {
  w_orders : gmap string Order;              (** the [orders] collection *)
  w_addresses : gmap string ShippingAddress; (** the [shipping_addresses] collection *)
  w_next_id : positive;                      (** ObjectId generator *)
  w_clock : Z;                               (** [datetime.utcnow()] *)
  w_uuid : positive;                         (** [uuid.uuid4()] *)
  w_events : list Event;                     (** messages accepted by the broker *)
  w_log : list string                        (** logger output *)
}.

Definition mkWorld o a i c u e l : World :=
  {| w_orders := o; w_addresses := a; w_next_id := i; w_clock := c;
     w_uuid := u; w_events := e; w_log := l |}.

(** The state/exception monad in which the async service code runs:
    effects done before an exception stay done. *)
Definition M (A : Type) := World -> Res A * World.

Definition ret {A} (a : A) : M A := fun w => (Ok a, w).
Definition bind {A B} (c : M A) (k : A -> M B) : M B :=
  fun w => match c w with
           | (Ok a, w') => k a w'
           | (Raise e, w') => (Raise e, w')
           end.
Definition raise {A} (e : Exc) : M A := fun w => (Raise e, w).
Definition lift {A} (r : Res A) : M A := fun w => (r, w).

Notation "x <- c ;; k" := (bind c (fun x => k))
  (at level 100, c at next level, right associativity).
Notation "c ;;; k" := (bind c (fun _ => k)) (at level 100, right associativity).

(** [try: c except: h] *)
Definition try_except {A} (c : M A) (h : Exc -> M A) : M A :=
  fun w => match c w with
           | (Ok a, w') => (Ok a, w')
           | (Raise e, w') => h e w'
           end.

Definition log (msg : string) : M unit :=
  fun w => (Ok tt, mkWorld (w_orders w) (w_addresses w) (w_next_id w) (w_clock w)
                           (w_uuid w) (w_events w) (w_log w ++ [msg])).

(** [datetime.utcnow()]: every call reads a strictly later instant. *)
Definition utcnow : M timestamp :=
  fun w => (Ok (w_clock w), mkWorld (w_orders w) (w_addresses w) (w_next_id w) (w_clock w + 1)
                                  (w_uuid w) (w_events w) (w_log w)).

(** [str(uuid.uuid4())[:8].upper()] *)
Definition uuid_prefix : M string :=
  fun w => (Ok (pretty (Npos (w_uuid w))),
            mkWorld (w_orders w) (w_addresses w) (w_next_id w) (w_clock w)
                    (Pos.succ (w_uuid w)) (w_events w) (w_log w)).

(** A fresh ObjectId, as [insert()] assigns it. *)
Definition fresh_id : M string :=
  fun w => (Ok ("oid" ++ pretty (Npos (w_next_id w)))%string,
            mkWorld (w_orders w) (w_addresses w) (Pos.succ (w_next_id w)) (w_clock w)
                    (w_uuid w) (w_events w) (w_log w)).

(** [Order.get(order_id)]: a missing document or a malformed id gives [None]
    (the repository catches the latter's exception). *)
Definition get_order (oid : string) : M (option Order) := fun w => (Ok (w_orders w !! oid), w).

(** [order.insert()] / [order.save()] of the document stored under [oid]. *)
Definition save_order (oid : string) (o : Order) : M unit :=
  fun w => (Ok tt, mkWorld (<[oid := o]> (w_orders w)) (w_addresses w) (w_next_id w) (w_clock w)
                           (w_uuid w) (w_events w) (w_log w)).

Definition insert_address (aid : string) (a : ShippingAddress) : M unit :=
  fun w => (Ok tt, mkWorld (w_orders w) (<[aid := a]> (w_addresses w)) (w_next_id w) (w_clock w)
                           (w_uuid w) (w_events w) (w_log w)).

Definition record_event (e : Event) : M unit :=
  fun w => (Ok tt, mkWorld (w_orders w) (w_addresses w) (w_next_id w) (w_clock w)
                           (w_uuid w) (w_events w ++ [e]) (w_log w)).

(** ** External services seen from the order service ([app/utils/external_services.py]) *)

(** The JSON body the product service answers for [GET /products/{id}];
    an [option] is a key that may be absent ([.get] with a default). *)
Record ProductJson := {
  pj_name : string;
  pj_sku : option string;
  pj_price : float;
  pj_description : option string;
  pj_category_name : option string;
  pj_image_urls : option (list string);
  pj_is_available : option bool;
  pj_stock_quantity : option Z
}.

(** What [get_product_by_id] yields: the product, [None] (non-200 answer or
    transport error, both caught), or a body on which the availability
    check itself raises (e.g. a non-object JSON or an ill-typed field). *)
Inductive ProductFetch :=
  | Fetched (p : ProductJson)
  | NotFetched
  | Malformed.

Record UserInfo := { ui_id : string; ui_email : string }.

(** Outcome of [AIOKafkaProducer.send_and_wait]. *)
Inductive SendOutcome :=
  | Sent
  | KafkaErrorRaised (msg : string)
  | OtherErrorRaised (msg : string).

(** The environment the order service talks to. *)
Record Env := {
  verify_user_token : string -> option UserInfo;   (** [GET /users/profile] *)
  get_product_by_id : string -> ProductFetch;       (** [GET /products/{id}] *)
  kafka_enabled : bool;                             (** [KAFKA_ENABLED] *)
  producer_started : bool;                          (** [self.producer] is not [None] *)
  send_and_wait : string -> jv -> option string -> SendOutcome
}.

Record Availability := {
  available : bool;
  av_reason : option string;
  available_quantity : Z;
  av_product : option ProductJson
}.

(** [ProductServiceClient.check_product_availability] *)
Definition check_product_availability (env : Env) (pid : string) (qty : Z) : Availability :=
  match get_product_by_id env pid with
  | NotFetched =>
      {| available := false; av_reason := Some "Product not found";
         available_quantity := 0; av_product := None |}
  | Malformed =>
      {| available := false; av_reason := Some "Service error";
         available_quantity := 0; av_product := None |}
  | Fetched p =>
      if negb (default false (pj_is_available p)) then
        {| available := false; av_reason := Some "Product not available";
           available_quantity := 0; av_product := None |}
      else
        let stock := default 0 (pj_stock_quantity p) in
        if Z.ltb stock qty then
          {| available := false; av_reason := Some "Insufficient stock";
             available_quantity := stock; av_product := None |}
        else
          {| available := true; av_reason := None;
             available_quantity := stock; av_product := Some p |}
  end.

Record OrderItemCreate := { ic_product_id : string; ic_quantity : Z }.

Record Reservation := {
  r_product_id : string;
  r_quantity : Z;
  reserved : bool;
  r_product : option ProductJson;
  r_reason : option string;
  r_available_quantity : Z
}.

Record ReservationResult := {
  success : bool;
  total_items : Z;
  reserved_items : Z;
  reservations : list Reservation
}.

(** One iteration of the loop of [reserve_products]. *)
Definition reserve_one (env : Env) (it : OrderItemCreate) : Reservation :=
  let av := check_product_availability env (ic_product_id it) (ic_quantity it) in
  if available av then
    {| r_product_id := ic_product_id it; r_quantity := ic_quantity it; reserved := true;
       r_product := av_product av; r_reason := None; r_available_quantity := 0 |}
  else
    {| r_product_id := ic_product_id it; r_quantity := ic_quantity it; reserved := false;
       r_product := None; r_reason := av_reason av;
       r_available_quantity := available_quantity av |}.

(** [ProductServiceClient.reserve_products] *)
Definition reserve_products (env : Env) (its : list OrderItemCreate) : ReservationResult :=
  let rs := map (reserve_one env) its in
  let n := Z.of_nat (length (List.filter (fun r => reserved r) rs)) in
  {| success := Z.eqb n (Z.of_nat (length its)); total_items := Z.of_nat (length its);
     reserved_items := n; reservations := rs |}.

(** ** The event emitter ([app/utils/kafka_producer.py]) *)

(** [KafkaProducer.send_event]: a no-op when Kafka is disabled or the
    producer is missing; otherwise the enriched event is sent and any
    [KafkaError] or other [Exception] is logged. *)
Definition enrich (topic : string) (event_data : list (string * jv)) : jv :=
  JObj [("service", JStr "order-service");
        ("timestamp", dget event_data "timestamp");
        ("event_type", JStr topic);
        ("data", JObj event_data)].

Definition send_event (env : Env) (topic : string) (event_data : list (string * jv))
    (key : option string) : M unit :=
  if negb (kafka_enabled env && producer_started env) then
    log ("Kafka disabled or producer not available, skipping event: " ++ topic)%string
  else
    let enriched := enrich topic event_data in
    match send_and_wait env topic enriched key with
    | Sent =>
        record_event {| ev_topic := topic; ev_value := enriched; ev_key := key |} ;;;
        log ("Event sent to topic '" ++ topic ++ "'")%string
    | KafkaErrorRaised m => log ("Kafka error sending event to topic '" ++ topic ++ "': " ++ m)%string
    | OtherErrorRaised m => log ("Unexpected error sending event to topic '" ++ topic ++ "': " ++ m)%string
    end.

Definition key_of (j : jv) : option string := match j with JStr s => Some s | _ => None end.

(** [publish_order_created_event] *)
Definition publish_order_created_event (env : Env) (order_data : list (string * jv)) : M unit :=
  let event_data :=
    [("event_type", JStr "order.created");
     ("order_id", dget order_data "id");
     ("order_number", dget order_data "order_number");
     ("user_id", dget order_data "user_id");
     ("user_email", dget order_data "user_email");
     ("total_amount", dget order_data "total_amount");
     ("item_count", dget order_data "item_count");
     ("items", default (JList []) (dlookup order_data "items"));
     ("timestamp", dget order_data "created_at")] in
  send_event env "order-events" event_data (key_of (dget order_data "id")).

(** [publish_order_cancelled_event] *)
Definition publish_order_cancelled_event (env : Env) (order_data : list (string * jv)) : M unit :=
  let event_data :=
    [("event_type", JStr "order.cancelled");
     ("order_id", dget order_data "id");
     ("order_number", dget order_data "order_number");
     ("user_id", dget order_data "user_id");
     ("user_email", dget order_data "user_email");
     ("total_amount", dget order_data "total_amount");
     ("reason", dget order_data "cancellation_reason");
     ("timestamp", dget order_data "updated_at")] in
  send_event env "order-events" event_data (key_of (dget order_data "id")).

(** ** Order service: repository and service ([order_repository.py], [order_service.py]) *)

Record OrderCreate := {
  oc_items : list OrderItemCreate;
  oc_shipping_address : ShippingAddress;
  oc_shipping_method : option string;
  oc_payment_method : option string;
  oc_notes : option string
}.

(** [OrderService._generate_order_number] *)
Definition generate_order_number : M string :=
  ts <- utcnow ;;
  sfx <- uuid_prefix ;;
  ret ("ORD-" ++ isoformat ts ++ "-" ++ sfx)%string.

(** [OrderRepository.create_order]: [Order] built from [order_data], then [insert()].
    The stored document is returned with its id. *)
Definition repo_create_order (a : OrderArgs) : M (string * Order) :=
  created <- utcnow ;;
  updated <- utcnow ;;
  let o := Order_new a created updated in
  oid <- fresh_id ;;
  save_order oid o ;;;
  ret (oid, o).

(** The loop of [create_order] over [zip(order_data.items, reservations)]:
    reserved lines become [OrderItem]s and [subtotal += total_price]. *)
Fixpoint build_items (lines : list (OrderItemCreate * Reservation)) (acc : list OrderItem)
    (sub : float) : Res (list OrderItem * float) :=
  match lines with
  | [] => Ok (acc, sub)
  | (it, r) :: rest =>
      match reserved r, r_product r with
      | true, Some p =>
          let snap := {| snap_name := pj_name p;
                         snap_description := default "" (pj_description p);
                         snap_price := pj_price p;
                         snap_category_name := pj_category_name p;
                         snap_image_urls := default [] (pj_image_urls p) |} in
          match OrderItem_new (ic_product_id it) (pj_name p) (pj_sku p) (pj_price p)
                  (ic_quantity it) (fmul (pj_price p) (of_Z (ic_quantity it))) snap with
          | Ok oi => build_items rest (acc ++ [oi]) (fadd sub (total_price oi))
          | Raise e => Raise e
          end
      | true, None => Raise (PyError "KeyError: 'product'")
      | false, _ => build_items rest acc sub
      end
  end.

(** The detail of the reservation failure. *)
Definition reservation_error_detail (rr : ReservationResult) : string :=
  let failed := List.filter (fun r => negb (reserved r)) (reservations rr) in
  let details := map (fun r => "Product " ++ r_product_id r ++ ": " ++
                               default "Unknown error" (r_reason r))%string failed in
  ("Product reservation failed: " ++ String.concat "; " details)%string.

Definition item_event (oi : OrderItem) : jv :=
  JObj [("product_id", JStr (product_id oi)); ("product_name", JStr (product_name oi));
        ("quantity", JInt (quantity oi)); ("unit_price", JNum (unit_price oi))].

(** The body of [OrderService.create_order], inside its [try]. *)
Definition create_order_body (env : Env) (order_data : OrderCreate) (user_token : string)
    : M (string * Order) :=
  match verify_user_token env user_token with
  | None => raise (HTTPException HTTP_401_UNAUTHORIZED "Invalid or expired token")
  | Some user_info =>
      let rr := reserve_products env (oc_items order_data) in
      if negb (success rr) then
        raise (HTTPException HTTP_400_BAD_REQUEST (reservation_error_detail rr))
      else
        built <- lift (build_items (combine (oc_items order_data) (reservations rr)) [] zero) ;;
        let '(order_items, subtotal) := built in
        aid <- fresh_id ;;
        insert_address aid (oc_shipping_address order_data) ;;;
        let tax_rate := lit 8 2 in
        let tax_amount' := py_round2 (fmul subtotal tax_rate) in
        let shipping_cost' := if flt subtotal (of_Z 100) then lit 100 1 else zero in
        let total_amount' := fadd (fadd subtotal tax_amount') shipping_cost' in
        num <- generate_order_number ;;
        created <- repo_create_order
          {| a_order_number := num; a_user_id := ui_id user_info;
             a_user_email := ui_email user_info; a_items := order_items;
             a_subtotal := subtotal; a_tax_amount := tax_amount';
             a_shipping_cost := shipping_cost'; a_discount_amount := zero;
             a_total_amount := total_amount'; a_status := PENDING;
             a_payment_status := PAYMENT_PENDING;
             a_shipping_address := oc_shipping_address order_data;
             a_shipping_method := oc_shipping_method order_data;
             a_payment_method := oc_payment_method order_data;
             a_notes := oc_notes order_data |} ;;
        let '(oid, order) := created in
        let order_event_data :=
          [("id", JStr oid); ("order_number", JStr (order_number order));
           ("user_id", JStr (user_id order)); ("user_email", JStr (user_email order));
           ("total_amount", JNum (total_amount order));
           ("item_count", JInt (get_item_count order));
           ("items", JList (map item_event (items order)));
           ("created_at", JStr (isoformat (created_at order)))] in
        publish_order_created_event env order_event_data ;;;
        ret (oid, order)
  end.

(** [OrderService.create_order]: an [HTTPException] is re-raised, any
    other exception is logged and turned into a 500. The response is the
    stored order with its id. *)
Definition create_order (env : Env) (order_data : OrderCreate) (user_token : string)
    : M (string * Order) :=
  try_except (create_order_body env order_data user_token)
    (fun e => match e with
              | HTTPException c d => raise (HTTPException c d)
              | PyError m => log ("Error creating order: " ++ m)%string ;;;
                             raise (HTTPException HTTP_500_INTERNAL_SERVER_ERROR
                                      "Failed to create order")
              end).

(** [publish_order_confirmed_event], [publish_order_shipped_event],
    [publish_order_delivered_event] *)
Definition publish_order_confirmed_event (env : Env) (order_data : list (string * jv)) : M unit :=
  send_event env "order-events"
    [("event_type", JStr "order.confirmed"); ("order_id", dget order_data "id");
     ("order_number", dget order_data "order_number"); ("user_id", dget order_data "user_id");
     ("user_email", dget order_data "user_email"); ("total_amount", dget order_data "total_amount");
     ("items", default (JList []) (dlookup order_data "items"));
     ("timestamp", dget order_data "confirmed_at")]
    (key_of (dget order_data "id")).

Definition publish_order_shipped_event (env : Env) (order_data : list (string * jv)) : M unit :=
  send_event env "order-events"
    [("event_type", JStr "order.shipped"); ("order_id", dget order_data "id");
     ("order_number", dget order_data "order_number"); ("user_id", dget order_data "user_id");
     ("user_email", dget order_data "user_email");
     ("tracking_number", dget order_data "tracking_number");
     ("shipping_method", dget order_data "shipping_method");
     ("shipping_address", dget order_data "shipping_address");
     ("timestamp", dget order_data "shipped_at")]
    (key_of (dget order_data "id")).

Definition publish_order_delivered_event (env : Env) (order_data : list (string * jv)) : M unit :=
  send_event env "order-events"
    [("event_type", JStr "order.delivered"); ("order_id", dget order_data "id");
     ("order_number", dget order_data "order_number"); ("user_id", dget order_data "user_id");
     ("user_email", dget order_data "user_email"); ("total_amount", dget order_data "total_amount");
     ("timestamp", dget order_data "delivered_at")]
    (key_of (dget order_data "id")).

(** The note line appended by [update_order_status]. *)
Definition append_note (old : option string) (ts : timestamp) (n : string) : option string :=
  if str_truthy old then Some (default "" old ++ "
" ++ isoformat ts ++ ": " ++ n)%string
  else Some (isoformat ts ++ ": " ++ n)%string.

(** The milestone stamping of [update_order_status]
    ([if status == CONFIRMED and not order.confirmed_at: ... elif ...]). *)
Definition stamp_milestone (o : Order) (s : OrderStatus) : M Order :=
  match s, confirmed_at o, shipped_at o, delivered_at o with
  | CONFIRMED, None, _, _ => t <- utcnow ;; ret (assign o (set_confirmed_at t))
  | SHIPPED, _, None, _ => t <- utcnow ;; ret (assign o (set_shipped_at t))
  | DELIVERED, _, _, None => t <- utcnow ;; ret (assign o (set_delivered_at t))
  | _, _, _, _ => ret o
  end.

(** [OrderRepository.update_order_status] *)
Definition repo_update_order_status (order_id : string) (s : OrderStatus) (nts : option string)
    : M (option Order) :=
  found <- get_order order_id ;;
  match found with
  | None => ret None
  | Some o =>
      let o1 := assign o (set_status s) in
      t <- utcnow ;;
      let o2 := assign o1 (set_updated_at t) in
      o3 <- stamp_milestone o2 s ;;
      o4 <- (if str_truthy nts
             then t' <- utcnow ;; ret (assign o3 (set_notes (append_note (notes o3) t' (default "" nts))))
             else ret o3) ;;
      save_order order_id o4 ;;;
      ret (Some o4)
  end.

Record OrderStatusUpdate := { su_status : OrderStatus; su_notes : option string }.

Definition jts (t : option timestamp) : jv := match t with Some v => JStr (isoformat v) | None => JNull end.

Definition address_json (a : ShippingAddress) : jv :=
  JObj [("full_name", JStr (full_name a)); ("address_line_1", JStr (address_line_1 a));
        ("address_line_2", jopt (address_line_2 a)); ("city", JStr (city a));
        ("state", JStr (state a)); ("postal_code", JStr (postal_code a));
        ("country", JStr (country a)); ("phone", jopt (phone a))].

Definition base_event_data (oid : string) (o : Order) : list (string * jv) :=
  [("id", JStr oid); ("order_number", JStr (order_number o)); ("user_id", JStr (user_id o));
   ("user_email", JStr (user_email o)); ("total_amount", JNum (total_amount o));
   ("updated_at", JStr (isoformat (updated_at o)))].

(** The "Publish appropriate events" block of [update_order_status]. *)
Definition publish_status_event (env : Env) (order_id : string) (upd : OrderStatusUpdate)
    (o : Order) : M unit :=
  let d := base_event_data order_id o in
  match su_status upd with
  | CONFIRMED => publish_order_confirmed_event env (d ++ [("confirmed_at", jts (confirmed_at o))])
  | CANCELLED => publish_order_cancelled_event env (d ++ [("cancellation_reason", jopt (su_notes upd))])
  | SHIPPED => publish_order_shipped_event env
                 (d ++ [("shipped_at", jts (shipped_at o));
                        ("tracking_number", jopt (tracking_number o));
                        ("shipping_method", jopt (shipping_method o));
                        ("shipping_address", address_json (shipping_address o))])
  | DELIVERED => publish_order_delivered_event env (d ++ [("delivered_at", jts (delivered_at o))])
  | _ => ret tt
  end.

(** [OrderService.update_order_status] (admin) *)
Definition update_order_status (env : Env) (order_id : string) (upd : OrderStatusUpdate)
    : M (string * Order) :=
  r <- repo_update_order_status order_id (su_status upd) (su_notes upd) ;;
  match r with
  | None => raise (HTTPException HTTP_404_NOT_FOUND "Order not found")
  | Some o =>
      publish_status_event env order_id upd o ;;;
      ret (order_id, o)
  end.

(** [OrderService.cancel_order] (customer). The repository call cannot
    return [None] here: the order was just loaded. *)
Definition cancel_order (env : Env) (order_id : string) (user_token : string)
    : M (string * Order) :=
  match verify_user_token env user_token with
  | None => raise (HTTPException HTTP_401_UNAUTHORIZED "Invalid or expired token")
  | Some user_info =>
      found <- get_order order_id ;;
      match found with
      | None => raise (HTTPException HTTP_404_NOT_FOUND "Order not found")
      | Some o =>
          if negb (String.eqb (user_id o) (ui_id user_info)) then
            raise (HTTPException HTTP_403_FORBIDDEN "Access denied")
          else if negb (is_cancellable o) then
            raise (HTTPException HTTP_400_BAD_REQUEST
                     ("Order cannot be cancelled in " ++ OrderStatus_value (status o) ++ " status")%string)
          else
            r <- repo_update_order_status order_id CANCELLED (Some "Cancelled by customer") ;;
            match r with
            | None => raise (PyError "AttributeError: 'NoneType' object has no attribute 'id'")
            | Some c =>
                publish_order_cancelled_event env
                  (base_event_data order_id c ++ [("cancellation_reason", JStr "Cancelled by customer")]) ;;;
                ret (order_id, c)
            end
      end
  end.

(** ** Order service: reads, payments, soft delete, listings and statistics *)

(** [OrderService.get_order_by_id]: the token, then the order, then its owner. *)
Definition get_order_by_id (env : Env) (order_id : string) (user_token : string)
    : M (string * Order) :=
  match verify_user_token env user_token with
  | None => raise (HTTPException HTTP_401_UNAUTHORIZED "Invalid or expired token")
  | Some user_info =>
      found <- get_order order_id ;;
      match found with
      | None => raise (HTTPException HTTP_404_NOT_FOUND "Order not found")
      | Some o =>
          if negb (String.eqb (user_id o) (ui_id user_info)) then
            raise (HTTPException HTTP_403_FORBIDDEN "Access denied")
          else ret (order_id, o)
      end
  end.

(** [order.payment_status = ...], [order.payment_transaction_id = ...],
    [order.payment_method = ...] on a loaded order. *)
Definition with_payment (o : Order) (ps : PaymentStatus) (tid pm : option string) : Order :=
  {| order_number := order_number o; user_id := user_id o; user_email := user_email o;
     items := items o; subtotal := subtotal o; tax_amount := tax_amount o;
     shipping_cost := shipping_cost o; discount_amount := discount_amount o;
     total_amount := total_amount o; status := status o; payment_status := ps;
     shipping_address := shipping_address o; shipping_method := shipping_method o;
     tracking_number := tracking_number o; payment_method := pm;
     payment_transaction_id := tid; created_at := created_at o; updated_at := updated_at o;
     confirmed_at := confirmed_at o; shipped_at := shipped_at o;
     delivered_at := delivered_at o; notes := notes o |}.

(** [OrderRepository.update_payment_status] *)
Definition repo_update_payment_status (order_id : string) (payment_status' : PaymentStatus)
    (payment_transaction_id' : option string) : M (option Order) :=
  found <- get_order order_id ;;
  match found with
  | None => ret None
  | Some o =>
      let o1 := with_payment o payment_status' (payment_transaction_id o) (payment_method o) in
      t <- utcnow ;;
      let o2 := assign o1 (set_updated_at t) in
      let o3 := if str_truthy payment_transaction_id'
                then with_payment o2 (payment_status o2) payment_transaction_id' (payment_method o2)
                else o2 in
      save_order order_id o3 ;;;
      ret (Some o3)
  end.

Record PaymentUpdate := {
  pu_payment_status : PaymentStatus;
  pu_payment_method : option string;
  pu_payment_transaction_id : option string
}.

(** [publish_payment_completed_event], [publish_payment_failed_event] *)
Definition publish_payment_completed_event (env : Env) (order_data : list (string * jv)) : M unit :=
  send_event env "order-events"
    [("event_type", JStr "order.payment_completed"); ("order_id", dget order_data "id");
     ("order_number", dget order_data "order_number"); ("user_id", dget order_data "user_id");
     ("user_email", dget order_data "user_email"); ("total_amount", dget order_data "total_amount");
     ("payment_method", dget order_data "payment_method");
     ("payment_transaction_id", dget order_data "payment_transaction_id");
     ("timestamp", dget order_data "updated_at")]
    (key_of (dget order_data "id")).

Definition publish_payment_failed_event (env : Env) (order_data : list (string * jv)) : M unit :=
  send_event env "order-events"
    [("event_type", JStr "order.payment_failed"); ("order_id", dget order_data "id");
     ("order_number", dget order_data "order_number"); ("user_id", dget order_data "user_id");
     ("user_email", dget order_data "user_email"); ("total_amount", dget order_data "total_amount");
     ("payment_method", dget order_data "payment_method");
     ("failure_reason", dget order_data "failure_reason");
     ("timestamp", dget order_data "updated_at")]
    (key_of (dget order_data "id")).

Definition payment_event_data (oid : string) (o : Order) : list (string * jv) :=
  [("id", JStr oid); ("order_number", JStr (order_number o)); ("user_id", JStr (user_id o));
   ("user_email", JStr (user_email o)); ("total_amount", JNum (total_amount o));
   ("payment_method", jopt (payment_method o));
   ("payment_transaction_id", jopt (payment_transaction_id o));
   ("updated_at", JStr (isoformat (updated_at o)))].

(** [OrderService.update_payment_status] *)
Definition update_payment_status (env : Env) (order_id : string) (payment_update : PaymentUpdate)
    : M (string * Order) :=
  r <- repo_update_payment_status order_id (pu_payment_status payment_update)
         (pu_payment_transaction_id payment_update) ;;
  match r with
  | None => raise (HTTPException HTTP_404_NOT_FOUND "Order not found")
  | Some o =>
      o' <- (if str_truthy (pu_payment_method payment_update)
             then let o' := with_payment o (payment_status o) (payment_transaction_id o)
                              (pu_payment_method payment_update) in
                  save_order order_id o' ;;; ret o'
             else ret o) ;;
      let d := payment_event_data order_id o' in
      (match pu_payment_status payment_update with
       | PAID => publish_payment_completed_event env d
       | FAILED => publish_payment_failed_event env
                     (d ++ [("failure_reason", JStr "Payment processing failed")])
       | _ => ret tt
       end) ;;;
      ret (order_id, o')
  end.

(** [OrderRepository.delete_order]: a soft delete of a cancellable order. *)
Definition repo_delete_order (order_id : string) : M bool :=
  found <- get_order order_id ;;
  match found with
  | Some o =>
      if is_cancellable o then
        t <- utcnow ;;
        save_order order_id (assign (assign o (set_status CANCELLED)) (set_updated_at t)) ;;;
        ret true
      else ret false
  | None => ret false
  end.

Definition PaymentStatus_eqb (a b : PaymentStatus) : bool :=
  match a, b with
  | PAYMENT_PENDING, PAYMENT_PENDING | PAID, PAID | FAILED, FAILED
  | PAYMENT_REFUNDED, PAYMENT_REFUNDED => true
  | _, _ => false
  end.

(** [.sort(-Order.created_at)]: newest first. MongoDB leaves equal keys in no
    particular order; the model keeps them in storage order (insertion sort). *)
Fixpoint insert_created_desc (x : string * Order) (l : list (string * Order))
    : list (string * Order) :=
  match l with
  | [] => [x]
  | y :: r => if Z.ltb (created_at (snd y)) (created_at (snd x)) then x :: y :: r
              else y :: insert_created_desc x r
  end.

Definition sort_created_desc (l : list (string * Order)) : list (string * Order) :=
  fold_left (fun acc x => insert_created_desc x acc) l [].

(** [.skip(offset).limit(limit).to_list()]: PyMongo refuses a negative skip,
    reads [limit(0)] as no limit and a negative limit as its absolute value. *)
Definition skip_limit {A} (offset limit : Z) (l : list A) : Res (list A) :=
  if Z.ltb offset 0 then Raise (PyError "ValueError: skip must be >= 0")
  else
    let r := skipn (Z.to_nat offset) l in
    if Z.eqb limit 0 then Ok r else Ok (firstn (Z.to_nat (Z.abs limit)) r).

(** [if status: query["status"] = status]: an enum member is always truthy. *)
Definition status_matches (st : option OrderStatus) (o : Order) : bool :=
  match st with Some s => OrderStatus_eqb (status o) s | None => true end.

(** [OrderRepository.get_orders_by_user] *)
Definition repo_get_orders_by_user (uid : string) (st : option OrderStatus) (limit offset : Z)
    : M (list (string * Order)) :=
  fun w =>
    (skip_limit offset limit
       (sort_created_desc
          (List.filter (fun q => String.eqb (user_id (snd q)) uid && status_matches st (snd q))
             (map_to_list (w_orders w)))), w).

(** The query of [OrderRepository.count_orders]: each filter only when truthy. *)
Definition count_query (st : option OrderStatus) (ps : option PaymentStatus)
    (uid : option string) (o : Order) : bool :=
  status_matches st o
  && match ps with Some p => PaymentStatus_eqb (payment_status o) p | None => true end
  && (if str_truthy uid then String.eqb (user_id o) (default "" uid) else true).

(** [OrderRepository.count_orders] *)
Definition count_orders (st : option OrderStatus) (ps : option PaymentStatus)
    (uid : option string) : M Z :=
  fun w => (Ok (Z.of_nat (length (List.filter (fun q => count_query st ps uid (snd q))
                                     (map_to_list (w_orders w))))), w).

Record OrderListResponse := {
  ol_orders : list (string * Order);
  ol_total : Z;
  ol_page : Z;
  ol_per_page : Z;
  ol_total_pages : Z
}.

(** [OrderService.get_user_orders]. Its [status] parameter shadows FastAPI's
    [status] module, so the 401 branch evaluates [status.HTTP_401_UNAUTHORIZED]
    on [None] or on an enum member and raises [AttributeError] instead. *)
Definition get_user_orders (env : Env) (user_token : string) (st : option OrderStatus)
    (page per_page : Z) : M OrderListResponse :=
  match verify_user_token env user_token with
  | None => raise (PyError "AttributeError: object has no attribute 'HTTP_401_UNAUTHORIZED'")
  | Some user_info =>
      let uid := ui_id user_info in
      let offset := (page - 1) * per_page in
      os <- repo_get_orders_by_user uid st per_page offset ;;
      total_orders <- count_orders st None (Some uid) ;;
      if Z.eqb per_page 0 then raise (PyError "ZeroDivisionError: integer division or modulo by zero")
      else ret {| ol_orders := os; ol_total := total_orders; ol_page := page;
                  ol_per_page := per_page;
                  ol_total_pages := Z.div (total_orders + per_page - 1) per_page |}
  end.

(** [OrderRepository.get_order_stats]. The grouping sums of [$sum] are
    MongoDB's own (it sums doubles with extra precision), so the summation
    of a group's [total_amount]s is a parameter [mongo_sum]. *)
Definition all_statuses : list OrderStatus :=
  [PENDING; CONFIRMED; PROCESSING; SHIPPED; DELIVERED; CANCELLED; REFUNDED].

(** [{"$group": {"_id": "$status", "count": {"$sum": 1}, "total_amount": {"$sum": "$total_amount"}}}]:
    one group per status that occurs. *)
Definition group_by_status (mongo_sum : list float -> float) (os : list Order)
    : list (OrderStatus * Z * float) :=
  flat_map (fun s =>
              match List.filter (fun o => OrderStatus_eqb (status o) s) os with
              | [] => []
              | g => [(s, Z.of_nat (length g), mongo_sum (map total_amount g))]
              end) all_statuses.

Record OrderStats := {
  total_orders : Z;
  pending_orders : Z;
  confirmed_orders : Z;
  processing_orders : Z;
  shipped_orders : Z;
  delivered_orders : Z;
  cancelled_orders : Z;
  total_revenue : float;
  average_order_value : float
}.

Definition stats0 : OrderStats :=
  {| total_orders := 0; pending_orders := 0; confirmed_orders := 0; processing_orders := 0;
     shipped_orders := 0; delivered_orders := 0; cancelled_orders := 0;
     total_revenue := zero; average_order_value := zero |}.

(** One iteration of [for item in result:]. *)
Definition stats_step (st : OrderStats) (item : OrderStatus * Z * float) : OrderStats :=
  let '(s, count, ta) := item in
  let t := total_orders st + count in
  let p := pending_orders st in let c := confirmed_orders st in
  let pr := processing_orders st in let sh := shipped_orders st in
  let d := delivered_orders st in let ca := cancelled_orders st in
  let rv := total_revenue st in
  let mk p c pr sh d ca rv :=
    {| total_orders := t; pending_orders := p; confirmed_orders := c; processing_orders := pr;
       shipped_orders := sh; delivered_orders := d; cancelled_orders := ca;
       total_revenue := rv; average_order_value := average_order_value st |} in
  match s with
  | PENDING => mk count c pr sh d ca rv
  | CONFIRMED => mk p count pr sh d ca rv
  | PROCESSING => mk p c count sh d ca rv
  | SHIPPED => mk p c pr count d ca rv
  | DELIVERED => mk p c pr sh count ca (fadd rv ta)
  | CANCELLED => mk p c pr sh d count rv
  | REFUNDED => mk p c pr sh d ca rv
  end.

Definition repo_get_order_stats (mongo_sum : list float -> float) : M OrderStats :=
  fun w =>
    let os := map snd (map_to_list (w_orders w)) in
    let st := fold_left stats_step (group_by_status mongo_sum os) stats0 in
    if Z.ltb 0 (total_orders st) then
      let total_result := match os with [] => [] | _ => [mongo_sum (map total_amount os)] end in
      match total_result with
      | tot :: _ =>
          (Ok {| total_orders := total_orders st; pending_orders := pending_orders st;
                 confirmed_orders := confirmed_orders st; processing_orders := processing_orders st;
                 shipped_orders := shipped_orders st; delivered_orders := delivered_orders st;
                 cancelled_orders := cancelled_orders st; total_revenue := total_revenue st;
                 average_order_value := py_round2 (fdiv tot (of_Z (total_orders st))) |}, w)
      | [] => (Ok st, w)
      end
    else (Ok st, w).

(** ** Product service ([product_service/app]) *)
Module ProductSvc.

Record Category := {
  cat_name : string;
  cat_description : option string;
  cat_is_active : bool;
  cat_created_at : timestamp;
  cat_updated_at : timestamp
}.

Record Product := {
  name : string;
  description : string;
  price : float;
  category_id : option string;
  category_name : option string;
  sku : option string;
  stock_quantity : Z;
  is_available : bool;
  is_active : bool;
  image_urls : list string;
  tags : list string;
  weight : option float;
  dimensions : option jv;
  p_created_at : timestamp;
  p_updated_at : timestamp
}.

(** The product service's database, its ObjectId generator and clock. *)
Record PState := {
  products : gmap string Product;
  categories : gmap string Category;
  p_next_id : positive;
  p_clock : Z
}.

Definition fresh (st : PState) : string * PState :=
  (("oid" ++ pretty (Npos (p_next_id st)))%string,
   {| products := products st; categories := categories st;
      p_next_id := Pos.succ (p_next_id st); p_clock := p_clock st |}).

Definition put_product (st : PState) (pid : string) (p : Product) : PState :=
  {| products := <[pid := p]> (products st); categories := categories st;
     p_next_id := p_next_id st; p_clock := p_clock st |}.

Definition put_category (st : PState) (cid : string) (c : Category) : PState :=
  {| products := products st; categories := <[cid := c]> (categories st);
     p_next_id := p_next_id st; p_clock := p_clock st |}.

(** [datetime.utcnow()] *)
Definition now (st : PState) : timestamp * PState :=
  (p_clock st, {| products := products st; categories := categories st;
                  p_next_id := p_next_id st; p_clock := p_clock st + 1 |}).

(** [Product.find_one(Product.sku == sku)] and
    [Category.find_one(Category.name == name)]. *)
Definition get_product_by_sku (st : PState) (s : string) : option Product :=
  snd <$> List.find (fun q => bool_decide (sku (snd q) = Some s)) (map_to_list (products st)).
Definition get_category_by_name (st : PState) (n : string) : option Category :=
  snd <$> List.find (fun q => String.eqb (cat_name (snd q)) n) (map_to_list (categories st)).

(** [ProductRepository.update_stock]: [None] when the product is missing
    (or the id malformed) or when the new quantity would be negative. *)
Definition repo_update_stock (st : PState) (product_id : string) (quantity_change : Z)
    : option Product * PState :=
  match products st !! product_id with
  | None => (None, st)
  | Some p =>
      let new_quantity := stock_quantity p + quantity_change in
      if Z.ltb new_quantity 0 then (None, st)
      else
        let '(t, st1) := now st in
        let p' := {| name := name p; description := description p; price := price p;
                     category_id := category_id p; category_name := category_name p;
                     sku := sku p; stock_quantity := new_quantity;
                     is_available := Z.ltb 0 new_quantity; is_active := is_active p;
                     image_urls := image_urls p; tags := tags p; weight := weight p;
                     dimensions := dimensions p; p_created_at := p_created_at p;
                     p_updated_at := t |} in
        (Some p', put_product st1 product_id p')
  end.

(** [ProductService.update_stock] *)
Definition update_stock (st : PState) (product_id : string) (quantity_change : Z)
    : Res Product * PState :=
  match repo_update_stock st product_id quantity_change with
  | (None, st') => (Raise (HTTPException HTTP_400_BAD_REQUEST
                             "Product not found or insufficient stock"), st')
  | (Some p, st') => (Ok p, st')
  end.

Record CategoryCreate := { cc_name : string; cc_description : option string }.

(** [CategoryService.create_category] *)
Definition create_category (st : PState) (d : CategoryCreate) : Res Category * PState :=
  match get_category_by_name st (cc_name d) with
  | Some _ => (Raise (HTTPException HTTP_400_BAD_REQUEST "Category with this name already exists"), st)
  | None =>
      let '(t1, st1) := now st in
      let '(t2, st2) := now st1 in
      let c := {| cat_name := cc_name d; cat_description := cc_description d;
                  cat_is_active := true; cat_created_at := t1; cat_updated_at := t2 |} in
      let '(cid, st3) := fresh st2 in
      (Ok c, put_category st3 cid c)
  end.

Record ProductCreate := {
  pc_name : string;
  pc_description : string;
  pc_price : float;
  pc_category_id : option string;
  pc_sku : option string;
  pc_stock_quantity : Z;
  pc_image_urls : list string;
  pc_tags : list string;
  pc_weight : option float;
  pc_dimensions : option jv
}.

(** [ProductService.create_product]; the SKU is checked only when it is
    given ([if product_data.sku:]). *)
Definition create_product (st : PState) (d : ProductCreate) : Res Product * PState :=
  let sku_taken := if str_truthy (pc_sku d) then
                     match get_product_by_sku st (default "" (pc_sku d)) with
                     | Some _ => true | None => false end
                   else false in
  if sku_taken then
    (Raise (HTTPException HTTP_400_BAD_REQUEST "Product with this SKU already exists"), st)
  else
    let cat := match pc_category_id d with
               | Some cid => if String.eqb cid "" then Ok None
                             else match categories st !! cid with
                                  | Some c => Ok (Some (cat_name c))
                                  | None => Raise (HTTPException HTTP_400_BAD_REQUEST "Category not found")
                                  end
               | None => Ok None
               end in
    match cat with
    | Raise e => (Raise e, st)
    | Ok category_name' =>
        let '(t1, st1) := now st in
        let '(t2, st2) := now st1 in
        let p := {| name := pc_name d; description := pc_description d; price := pc_price d;
                    category_id := pc_category_id d; category_name := category_name';
                    sku := pc_sku d; stock_quantity := pc_stock_quantity d;
                    is_available := true; is_active := true;
                    image_urls := pc_image_urls d; tags := pc_tags d;
                    weight := pc_weight d; dimensions := pc_dimensions d;
                    p_created_at := t1; p_updated_at := t2 |} in
        let '(pid, st3) := fresh st2 in
        (Ok p, put_product st3 pid p)
  end.

(** [ProductService.get_product_by_id]: an inactive product is not found. *)
Definition get_product_by_id (st : PState) (product_id : string) : Res Product :=
  match products st !! product_id with
  | Some p => if is_active p then Ok p
              else Raise (HTTPException HTTP_404_NOT_FOUND "Product not found")
  | None => Raise (HTTPException HTTP_404_NOT_FOUND "Product not found")
  end.

(** [ProductRepository.delete_product]: a soft delete. *)
Definition repo_delete_product (st : PState) (product_id : string) : bool * PState :=
  match products st !! product_id with
  | None => (false, st)
  | Some p =>
      let '(t, st1) := now st in
      let p' := {| name := name p; description := description p; price := price p;
                   category_id := category_id p; category_name := category_name p;
                   sku := sku p; stock_quantity := stock_quantity p;
                   is_available := is_available p; is_active := false;
                   image_urls := image_urls p; tags := tags p; weight := weight p;
                   dimensions := dimensions p; p_created_at := p_created_at p;
                   p_updated_at := t |} in
      (true, put_product st1 product_id p')
  end.

(** [ProductService.delete_product]: the existence check is the repository's
    [get_product_by_id], which does not look at [is_active]. *)
Definition delete_product (st : PState) (product_id : string) : Res string * PState :=
  match products st !! product_id with
  | None => (Raise (HTTPException HTTP_404_NOT_FOUND "Product not found"), st)
  | Some _ =>
      match repo_delete_product st product_id with
      | (false, st') => (Raise (HTTPException HTTP_500_INTERNAL_SERVER_ERROR
                                  "Failed to delete product"), st')
      | (true, st') => (Ok "Product deleted successfully", st')
      end
  end.




(** [CategoryService.get_category_by_id]: no [is_active] check. *)
Definition get_category_by_id (st : PState) (category_id : string) : Res Category :=
  match categories st !! category_id with
  | Some c => Ok c
  | None => Raise (HTTPException HTTP_404_NOT_FOUND "Category not found")
  end.




(** [CategoryRepository.delete_category]: a soft delete. *)
Definition repo_delete_category (st : PState) (category_id : string) : bool * PState :=
  match categories st !! category_id with
  | None => (false, st)
  | Some c =>
      let '(t, st1) := now st in
      (true, put_category st1 category_id
               {| cat_name := cat_name c; cat_description := cat_description c;
                  cat_is_active := false; cat_created_at := cat_created_at c;
                  cat_updated_at := t |})
  end.

(** [CategoryService.delete_category] *)
Definition delete_category (st : PState) (category_id : string) : Res string * PState :=
  match categories st !! category_id with
  | None => (Raise (HTTPException HTTP_404_NOT_FOUND "Category not found"), st)
  | Some _ =>
      match repo_delete_category st category_id with
      | (false, st') => (Raise (HTTPException HTTP_500_INTERNAL_SERVER_ERROR
                                  "Failed to delete category"), st')
      | (true, st') => (Ok "Category deleted successfully", st')
      end
  end.




End ProductSvc.

(** ** User service ([user_service/app]) *)
Module UserSvc.

Record User := {
  u_name : string;
  email : string;
  password_hash : string;
  u_is_active : bool;
  u_created_at : timestamp;
  u_updated_at : timestamp
}.

Record UState := { users : gmap string User; u_next_id : positive; u_clock : Z }.

Record UserCreate := { uc_name : string; uc_email : string; uc_password : string }.

(** [UserRepository.user_exists]: [User.find_one(User.email == email)]. *)
Definition user_exists (st : UState) (e : string) : bool :=
  existsb (fun q => String.eqb (email (snd q)) e) (map_to_list (users st)).

(** [UserService.register_user]. The password hash is computed by
    [AuthUtils.hash_password], passed in as [hash_password]. *)
Definition register_user (hash_password : string -> string) (st : UState) (d : UserCreate)
    : Res User * UState :=
  if user_exists st (uc_email d) then
    (Raise (HTTPException HTTP_400_BAD_REQUEST "User with this email already exists"), st)
  else
    let t := u_clock st in
    let u := {| u_name := uc_name d; email := uc_email d;
                password_hash := hash_password (uc_password d); u_is_active := true;
                u_created_at := t; u_updated_at := t + 1 |} in
    let uid := ("oid" ++ pretty (Npos (u_next_id st)))%string in
    (Ok u, {| users := <[uid := u]> (users st); u_next_id := Pos.succ (u_next_id st);
              u_clock := t + 2 |}).

(** [UserRepository.get_user_by_email]: [User.find_one(User.email == email)],
    returned with its id. *)
Definition get_user_by_email (st : UState) (e : string) : option (string * User) :=
  List.find (fun q => String.eqb (email (snd q)) e) (map_to_list (users st)).

(** [UserService.authenticate_user]; [AuthUtils.verify_password] is passed in. *)
Definition authenticate_user (verify_password : string -> string -> bool) (st : UState)
    (e password : string) : option (string * User) :=
  match get_user_by_email st e with
  | None => None
  | Some (uid, u) =>
      if negb (u_is_active u) then None
      else if negb (verify_password password (password_hash u)) then None
      else Some (uid, u)
  end.

Record LoginResult := { access_token : string; token_type : string; lr_user : string * User }.

(** [UserService.login_user]; [AuthUtils.create_access_token] on
    [{"sub": id, "email": email}] is passed in as a function of both. *)
Definition login_user (verify_password : string -> string -> bool)
    (create_access_token : string -> string -> string) (st : UState) (e password : string)
    : Res LoginResult :=
  match authenticate_user verify_password st e password with
  | None => Raise (HTTPException HTTP_401_UNAUTHORIZED "Incorrect email or password")
  | Some (uid, u) =>
      Ok {| access_token := create_access_token uid (email u); token_type := "bearer";
            lr_user := (uid, u) |}
  end.

(** [UserService.get_user_profile] *)
Definition get_user_profile (st : UState) (user_id : string) : Res User :=
  match users st !! user_id with
  | None => Raise (HTTPException HTTP_404_NOT_FOUND "User not found")
  | Some u => if negb (u_is_active u) then Raise (HTTPException HTTP_404_NOT_FOUND "User not found")
              else Ok u
  end.

(** The keys an [update_dict] of the service may hold. *)
Record UserFields := { f_name : option string; f_email : option string; f_password_hash : option string }.

(** [UserRepository.update_user]: [setattr] of each given field, then
    [updated_at = utcnow()]. *)
Definition repo_update_user (st : UState) (user_id : string) (upd : UserFields)
    : option User * UState :=
  match users st !! user_id with
  | None => (None, st)
  | Some u =>
      let t := u_clock st in
      let u' := {| u_name := default (u_name u) (f_name upd);
                   email := default (email u) (f_email upd);
                   password_hash := default (password_hash u) (f_password_hash upd);
                   u_is_active := u_is_active u; u_created_at := u_created_at u;
                   u_updated_at := t |} in
      (Some u', {| users := <[user_id := u']> (users st); u_next_id := u_next_id st;
                   u_clock := t + 1 |})
  end.



Record UserPasswordUpdate := { current_password : string; new_password : string }.

(** [UserService.update_user_password] *)
Definition update_user_password (hash_password : string -> string)
    (verify_password : string -> string -> bool) (st : UState) (user_id : string)
    (d : UserPasswordUpdate) : Res string * UState :=
  match users st !! user_id with
  | None => (Raise (HTTPException HTTP_404_NOT_FOUND "User not found"), st)
  | Some u =>
      if negb (u_is_active u) then (Raise (HTTPException HTTP_404_NOT_FOUND "User not found"), st)
      else if negb (verify_password (current_password d) (password_hash u)) then
        (Raise (HTTPException HTTP_400_BAD_REQUEST "Current password is incorrect"), st)
      else
        match repo_update_user st user_id
                {| f_name := None; f_email := None;
                   f_password_hash := Some (hash_password (new_password d)) |} with
        | (None, st') => (Raise (HTTPException HTTP_500_INTERNAL_SERVER_ERROR "Failed to update password"), st')
        | (Some _, st') => (Ok "Password updated successfully", st')
        end
  end.

(** [UserRepository.delete_user]: a soft delete. *)
Definition delete_user (st : UState) (user_id : string) : bool * UState :=
  match users st !! user_id with
  | None => (false, st)
  | Some u =>
      let t := u_clock st in
      (true, {| users := <[user_id := {| u_name := u_name u; email := email u;
                                         password_hash := password_hash u; u_is_active := false;
                                         u_created_at := u_created_at u; u_updated_at := t |}]> (users st);
                u_next_id := u_next_id st; u_clock := t + 1 |})
  end.

End UserSvc.

(** * Derived notions and sample inputs *)

(** The part of the world the order service persists or draws ids and
    times from; events and log lines are left out. *)
Definition core (w : World) :=
  (w_orders w, w_addresses w, w_next_id w, w_clock w, w_uuid w).

(** The same environment with another event transport. *)
Definition with_transport (env : Env) (en ps : bool)
    (snd_wait : string -> jv -> option string -> SendOutcome) : Env :=
  {| verify_user_token := verify_user_token env; get_product_by_id := get_product_by_id env;
     kafka_enabled := en; producer_started := ps; send_and_wait := snd_wait |}.

Definition stock_nonneg (st : ProductSvc.PState) : Prop :=
  forall q p, ProductSvc.products st !! q = Some p -> 0 <= ProductSvc.stock_quantity p.

Definition hash_demo (pw : string) : string := ("bcrypt$" ++ pw)%string.
Definition ustate0 : UserSvc.UState := {| UserSvc.users := ∅; UserSvc.u_next_id := 1%positive; UserSvc.u_clock := 0 |}.
Definition alice : UserSvc.UserCreate :=
  {| UserSvc.uc_name := "Alice"; UserSvc.uc_email := "alice@example.com"; UserSvc.uc_password := "password1" |}.
Definition alice2 : UserSvc.UserCreate :=
  {| UserSvc.uc_name := "Alice Two"; UserSvc.uc_email := "alice@example.com"; UserSvc.uc_password := "password2" |}.

(** The milestone timestamp a status stamps. *)
Definition milestone (s : OrderStatus) (o : Order) : option timestamp :=
  match s with
  | CONFIRMED => confirmed_at o
  | SHIPPED => shipped_at o
  | DELIVERED => delivered_at o
  | _ => None
  end.

Definition is_milestone (s : OrderStatus) : bool :=
  match s with CONFIRMED | SHIPPED | DELIVERED => true | _ => false end.

Definition line_failure (env : Env) (it : OrderItemCreate) : string :=
  ("Product " ++ ic_product_id it ++ ": " ++
   default "Unknown error" (av_reason (check_product_availability env (ic_product_id it) (ic_quantity it))))%string.

Definition line_fails (env : Env) (it : OrderItemCreate) : bool :=
  negb (available (check_product_availability env (ic_product_id it) (ic_quantity it))).

Definition pre_clamp_total (o : Order) : float :=
  fsub (fadd (fadd (subtotal o) (tax_amount o)) (shipping_cost o)) (discount_amount o).

(** The same keyword arguments with another supplied [total_amount]. *)
Definition with_supplied_total (a : OrderArgs) (t : float) : OrderArgs :=
  {| a_order_number := a_order_number a; a_user_id := a_user_id a;
     a_user_email := a_user_email a; a_items := a_items a; a_subtotal := a_subtotal a;
     a_tax_amount := a_tax_amount a; a_shipping_cost := a_shipping_cost a;
     a_discount_amount := a_discount_amount a; a_total_amount := t;
     a_status := a_status a; a_payment_status := a_payment_status a;
     a_shipping_address := a_shipping_address a; a_shipping_method := a_shipping_method a;
     a_payment_method := a_payment_method a; a_notes := a_notes a |}.

Definition addr0 : ShippingAddress :=
  {| full_name := "A"; address_line_1 := "1 St"; address_line_2 := None; city := "C";
     state := "S"; postal_code := "1"; country := "X"; phone := None |}.

(** Keyword arguments with no items and the given money fields. *)
Definition args_demo (sub tax ship disc tot : float) : OrderArgs :=
  {| a_order_number := "ORD-1"; a_user_id := "u1"; a_user_email := "u@x"; a_items := [];
     a_subtotal := sub; a_tax_amount := tax; a_shipping_cost := ship;
     a_discount_amount := disc; a_total_amount := tot; a_status := PENDING;
     a_payment_status := PAYMENT_PENDING; a_shipping_address := addr0;
     a_shipping_method := None; a_payment_method := None; a_notes := None |}.

Definition w0 : World := mkWorld ∅ ∅ 1%positive 0 1%positive [] [].

Definition prodA (price : float) : ProductJson :=
  {| pj_name := "A"; pj_sku := None; pj_price := price; pj_description := None;
     pj_category_name := None; pj_image_urls := None; pj_is_available := Some true;
     pj_stock_quantity := Some 10 |}.

(** A catalogue of in-stock products with the given prices, a token ["tok"]
    that resolves, and a working broker. *)
Definition env_prices (ps : list (string * float)) : Env :=
  {| verify_user_token := fun t =>
       if String.eqb t "tok" then Some {| ui_id := "u1"; ui_email := "u@x" |} else None;
     get_product_by_id := fun pid =>
       match List.find (fun q => String.eqb (fst q) pid) ps with
       | Some (_, pr) => Fetched (prodA pr)
       | None => NotFetched
       end;
     kafka_enabled := true; producer_started := true; send_and_wait := fun _ _ _ => Sent |}.

Definition req (ls : list (string * Z)) : OrderCreate :=
  {| oc_items := map (fun q => {| ic_product_id := fst q; ic_quantity := snd q |}) ls;
     oc_shipping_address := addr0; oc_shipping_method := None; oc_payment_method := None;
     oc_notes := None |}.

(** The persisted [(subtotal, tax_amount, shipping_cost, total_amount)]. *)
Definition outcome (r : Res (string * Order) * World) : option (float * float * float * float) :=
  match fst r with
  | Ok (_, o) => Some (subtotal o, tax_amount o, shipping_cost o, total_amount o)
  | Raise _ => None
  end.

Definition basket4 : OrderCreate := req [("a", 1); ("b", 1); ("c", 1); ("d", 1)].
Definition prices4 : Env :=
  env_prices [("a", lit 1892 2); ("b", lit 1793 2); ("c", lit 3766 2); ("d", lit 2549 2)].

Definition ui1 : UserInfo := {| ui_id := "u1"; ui_email := "u@x" |}.
Definition env_A : Env := env_prices [("A", of_Z 30)].
Definition env_failing : Env :=
  with_transport env_A true true (fun _ _ _ => KafkaErrorRaised "broker down").
Definition order_demo : Order := Order_new (args_demo (of_Z 50) (of_Z 4) (of_Z 10) zero zero) 0 0.
Definition w_demo : World := mkWorld {[ "oid1" := order_demo ]} ∅ 2%positive 1 1%positive [] [].
Definition ship_demo : OrderStatusUpdate := {| su_status := SHIPPED; su_notes := Some "left the warehouse" |}.

Definition prod_demo : ProductSvc.Product :=
  {| ProductSvc.name := "Mug"; ProductSvc.description := ""; ProductSvc.price := of_Z 5;
     ProductSvc.category_id := None; ProductSvc.category_name := None; ProductSvc.sku := None;
     ProductSvc.stock_quantity := 3; ProductSvc.is_available := true;
     ProductSvc.is_active := true; ProductSvc.image_urls := []; ProductSvc.tags := [];
     ProductSvc.weight := None; ProductSvc.dimensions := None;
     ProductSvc.p_created_at := 0; ProductSvc.p_updated_at := 0 |}.
Definition pst_demo : ProductSvc.PState :=
  {| ProductSvc.products := {[ "p1" := prod_demo ]}; ProductSvc.categories := ∅;
     ProductSvc.p_next_id := 1%positive; ProductSvc.p_clock := 1 |}.
Definition stock_demo := ProductSvc.update_stock pst_demo "p1" (-3).
Definition stock_demo_product : ProductSvc.Product :=
  match fst stock_demo with Ok p => p | Raise _ => prod_demo end.

Definition verify_demo (pw h : string) : bool := String.eqb h (hash_demo pw).
Definition token_demo (uid e : string) : string := (uid ++ ":" ++ e)%string.
Definition alice_user : UserSvc.User :=
  {| UserSvc.u_name := "Alice"; UserSvc.email := "alice@example.com";
     UserSvc.password_hash := hash_demo "password1"; UserSvc.u_is_active := true;
     UserSvc.u_created_at := 0; UserSvc.u_updated_at := 1 |}.
Definition ustate1 : UserSvc.UState :=
  {| UserSvc.users := {[ "u1" := alice_user ]}; UserSvc.u_next_id := 2%positive; UserSvc.u_clock := 2 |}.

(** ** Notions used by the properties of the remaining service functions *)

(** The ["data"] object of an enriched event value. *)
Definition event_data (e : Event) : list (string * jv) :=
  match ev_value e with
  | JObj d => match dlookup d "data" with Some (JObj dd) => dd | _ => [] end
  | _ => []
  end.

(** The stored orders of a user with an optional status filter, in store order. *)
Definition matching_orders (w : World) (uid : string) (st : option OrderStatus)
    : list (string * Order) :=
  List.filter (fun q => String.eqb (user_id (snd q)) uid && status_matches st (snd q))
    (map_to_list (w_orders w)).

(** The order [sort("created_at", -1)] puts first. *)
Definition created_desc (a b : string * Order) : Prop := created_at (snd b) <= created_at (snd a).


(** The number of orders with the given status. *)
Definition count_status (os : list Order) (s : OrderStatus) : Z :=
  Z.of_nat (length (List.filter (fun o => OrderStatus_eqb (status o) s) os)).




(** No two stored users share an email. *)
Definition emails_unique (m : gmap string UserSvc.User) : Prop :=
  forall k1 k2 u1 u2, m !! k1 = Some u1 -> m !! k2 = Some u2 ->
    UserSvc.email u1 = UserSvc.email u2 -> k1 = k2.

(** * Properties *)

(** ** Floats: rounding examples *)

Example lit_tax_rate_mul : py_round2 (fmul (of_Z 60) (lit 8 2)) = lit 48 1.
Proof. vm_compute. reflexivity. Qed.
Example round_half_even_0125 : py_round2 (lit 125 3) = lit 12 2.
Proof. vm_compute. reflexivity. Qed.
Example round_2675 : py_round2 (lit 2675 3) = lit 267 2.
Proof. vm_compute. reflexivity. Qed.

Lemma send_event_shape (env : Env) topic d k (w : World) :
  fst (send_event env topic d k w) = Ok tt /\ core (snd (send_event env topic d k w)) = core w.
Proof.
  unfold send_event.
  destruct (kafka_enabled env && producer_started env); simpl;
    [destruct (send_and_wait env topic (enrich topic d) k) |]; split; reflexivity.
Qed.

Lemma send_event_eq (env : Env) topic d k (w : World) :
  send_event env topic d k w = (Ok tt, snd (send_event env topic d k w)).
Proof.
  destruct (send_event_shape env topic d k w) as [H _].
  destruct (send_event env topic d k w) as [r w']; simpl in *; subst; reflexivity.
Qed.

Lemma publish_created_eq (env : Env) d (w : World) :
  publish_order_created_event env d w = (Ok tt, snd (publish_order_created_event env d w))
  /\ core (snd (publish_order_created_event env d w)) = core w.
Proof.
  unfold publish_order_created_event. split; [apply send_event_eq | apply send_event_shape].
Qed.

Lemma publish_cancelled_eq (env : Env) d (w : World) :
  publish_order_cancelled_event env d w = (Ok tt, snd (publish_order_cancelled_event env d w))
  /\ core (snd (publish_order_cancelled_event env d w)) = core w.
Proof.
  unfold publish_order_cancelled_event. split; [apply send_event_eq | apply send_event_shape].
Qed.

(** ** C9 *)

(** C9: the event emission never raises. With the transport disabled or
    the producer missing it is a no-op on everything but the log; a
    failed publish leaves the broker untouched and adds one log line; it
    never changes stored data. The outcome of [create_order] and the
    orders it stores do not depend on the transport at all, so a failed
    [order.created] emission neither fails nor rolls back the creation. *)
Theorem send_event_never_raises :
  (forall (env : Env) topic d k (w : World),
      fst (send_event env topic d k w) = Ok tt
      /\ core (snd (send_event env topic d k w)) = core w
      /\ (kafka_enabled env && producer_started env = false ->
          w_events (snd (send_event env topic d k w)) = w_events w)
      /\ (send_and_wait env topic (enrich topic d) k <> Sent ->
          w_events (snd (send_event env topic d k w)) = w_events w
          /\ length (w_log (snd (send_event env topic d k w))) = S (length (w_log w)))) /\
  (forall (env : Env) en ps snd_wait order_data user_token (w : World),
      fst (create_order (with_transport env en ps snd_wait) order_data user_token w)
        = fst (create_order env order_data user_token w)
      /\ w_orders (snd (create_order (with_transport env en ps snd_wait) order_data user_token w))
        = w_orders (snd (create_order env order_data user_token w))).
Proof.
  split.
  - intros env topic d k w.
    destruct (send_event_shape env topic d k w) as [H1 H2].
    split; [exact H1 | split; [exact H2 | split]].
    + intros Hoff. unfold send_event. rewrite Hoff. reflexivity.
    + intros Hfail. unfold send_event.
      destruct (kafka_enabled env && producer_started env); simpl;
        [| rewrite length_app; simpl; split; [reflexivity | lia]].
      destruct (send_and_wait env topic (enrich topic d) k); simpl;
        [congruence | |]; rewrite length_app; simpl; split; [reflexivity | lia | reflexivity | lia].
  - intros env en ps snd_wait od tok w.
    unfold create_order, create_order_body, try_except. simpl.
    destruct (verify_user_token env tok) as [ui|]; [|split; reflexivity].
    unfold reserve_products, reserve_one, check_product_availability. simpl.
    match goal with |- context [if negb ?b then _ else _] => destruct b end;
      [| split; reflexivity].
    simpl. unfold bind at 1, lift.
    match goal with |- context [build_items ?l ?a ?z] => destruct (build_items l a z) as [[its sub]|e] end;
      [| simpl; destruct e; split; reflexivity].
    cbn -[publish_order_created_event]. unfold bind.
    match goal with
    | |- context [publish_order_created_event (with_transport env en ps snd_wait) ?d ?w0] =>
        destruct (publish_created_eq (with_transport env en ps snd_wait) d w0) as [E1 C1];
        destruct (publish_created_eq env d w0) as [E2 C2];
        rewrite E1, E2
    end.
    simpl. split; [reflexivity|].
    unfold core in C1, C2. injection C1. injection C2. intros. congruence.
Qed.

(** ** C8 and C10: stock updates *)

(** C8: a delta that would make the stock negative is rejected: the
    repository returns no product, the service raises BadRequest, and the
    state (hence the stored stock) is unchanged. Every stock update keeps
    all stored quantities non-negative. *)
Theorem update_stock_rejects_negative :
  forall (st : ProductSvc.PState) (pid : string) (quantity_change : Z),
    (forall p, ProductSvc.products st !! pid = Some p ->
       ProductSvc.stock_quantity p + quantity_change < 0 ->
       ProductSvc.repo_update_stock st pid quantity_change = (None, st)
       /\ ProductSvc.update_stock st pid quantity_change
          = (Raise (HTTPException HTTP_400_BAD_REQUEST "Product not found or insufficient stock"), st))
    /\ (stock_nonneg st -> stock_nonneg (snd (ProductSvc.repo_update_stock st pid quantity_change)))
    /\ (stock_nonneg st -> stock_nonneg (snd (ProductSvc.update_stock st pid quantity_change))).
Proof.
  intros st pid dq.
  assert (Hrepo : stock_nonneg st -> stock_nonneg (snd (ProductSvc.repo_update_stock st pid dq))).
  { intros Hinv. unfold ProductSvc.repo_update_stock.
    destruct (ProductSvc.products st !! pid) as [p|] eqn:Hp; [|exact Hinv].
    destruct (Z.ltb_spec (ProductSvc.stock_quantity p + dq) 0); [exact Hinv|].
    simpl. intros q p' Hq. simpl in Hq.
    destruct (decide (pid = q)) as [->|Hne].
    - rewrite lookup_insert_eq in Hq. injection Hq as <-. simpl. lia.
    - rewrite lookup_insert_ne in Hq by exact Hne. exact (Hinv q p' Hq). }
  split; [|split].
  - intros p Hp Hneg. unfold ProductSvc.update_stock, ProductSvc.repo_update_stock.
    rewrite Hp. replace (Z.ltb (ProductSvc.stock_quantity p + dq) 0) with true by lia.
    split; reflexivity.
  - exact Hrepo.
  - intros Hinv. unfold ProductSvc.update_stock.
    pose proof (Hrepo Hinv) as H.
    destruct (ProductSvc.repo_update_stock st pid dq) as [[p|] st']; exact H.
Qed.

(** C10: after a successful stock update the product's availability flag
    is the positivity of its new stock, the new stock is the old one plus
    the delta, and that product is what is stored. *)
Theorem update_stock_availability :
  forall (st st' : ProductSvc.PState) (pid : string) (quantity_change : Z) (p : ProductSvc.Product),
    ProductSvc.update_stock st pid quantity_change = (Ok p, st') ->
    ProductSvc.is_available p = Z.ltb 0 (ProductSvc.stock_quantity p)
    /\ ProductSvc.products st' !! pid = Some p
    /\ exists old, ProductSvc.products st !! pid = Some old
                   /\ ProductSvc.stock_quantity p = ProductSvc.stock_quantity old + quantity_change.
Proof.
  intros st st' pid dq p H.
  unfold ProductSvc.update_stock, ProductSvc.repo_update_stock in H.
  destruct (ProductSvc.products st !! pid) as [old|] eqn:Hold; [|discriminate].
  destruct (Z.ltb (ProductSvc.stock_quantity old + dq) 0); [discriminate|].
  simpl in H. injection H as <- <-. simpl.
  split; [reflexivity|]. split.
  - apply lookup_insert_eq.
  - exists old. split; reflexivity.
Qed.

(** ** C7: duplicate unique fields *)

Lemma user_exists_after_insert (m : gmap string UserSvc.User) uid (u : UserSvc.User) n c :
  UserSvc.user_exists {| UserSvc.users := <[uid := u]> m; UserSvc.u_next_id := n;
                         UserSvc.u_clock := c |} (UserSvc.email u) = true.
Proof.
  unfold UserSvc.user_exists. apply existsb_exists. exists (uid, u). split.
  - apply list_elem_of_In. simpl. apply elem_of_map_to_list. apply lookup_insert_eq.
  - apply String.eqb_refl.
Qed.

(** C7 (counterexample): registering a second user with an already
    registered email fails with status 400 (BadRequest), not 409 (Conflict). *)
Lemma register_duplicate_email_not_conflict :
  fst (UserSvc.register_user hash_demo (snd (UserSvc.register_user hash_demo ustate0 alice)) alice2)
    = Raise (HTTPException HTTP_400_BAD_REQUEST "User with this email already exists")
  /\ HTTP_400_BAD_REQUEST <> HTTP_409_CONFLICT.
Proof. split; [vm_compute; reflexivity | discriminate]. Qed.

(** C7 (amended): a request duplicating a unique field fails with
    BadRequest (400) and changes nothing: a user whose email is already
    registered (in particular right after a successful registration with
    that email), a product whose given, non-empty SKU already exists, a
    category whose name already exists. *)
Theorem duplicate_unique_field_bad_request :
  (forall (hash : string -> string) (st : UserSvc.UState) (d : UserSvc.UserCreate),
      UserSvc.user_exists st (UserSvc.uc_email d) = true ->
      UserSvc.register_user hash st d
        = (Raise (HTTPException HTTP_400_BAD_REQUEST "User with this email already exists"), st))
  /\ (forall (hash : string -> string) (st st' : UserSvc.UState) (d d' : UserSvc.UserCreate) u,
      UserSvc.register_user hash st d = (Ok u, st') ->
      UserSvc.uc_email d' = UserSvc.uc_email d ->
      UserSvc.register_user hash st' d'
        = (Raise (HTTPException HTTP_400_BAD_REQUEST "User with this email already exists"), st'))
  /\ (forall (st : ProductSvc.PState) (d : ProductSvc.ProductCreate) s p,
      ProductSvc.pc_sku d = Some s -> s <> ""%string ->
      ProductSvc.get_product_by_sku st s = Some p ->
      ProductSvc.create_product st d
        = (Raise (HTTPException HTTP_400_BAD_REQUEST "Product with this SKU already exists"), st))
  /\ (forall (st : ProductSvc.PState) (d : ProductSvc.CategoryCreate) c,
      ProductSvc.get_category_by_name st (ProductSvc.cc_name d) = Some c ->
      ProductSvc.create_category st d
        = (Raise (HTTPException HTTP_400_BAD_REQUEST "Category with this name already exists"), st)).
Proof.
  split; [|split; [|split]].
  - intros hash st d H. unfold UserSvc.register_user. rewrite H. reflexivity.
  - intros hash st st' d d' u Hreg Hmail.
    unfold UserSvc.register_user in Hreg.
    destruct (UserSvc.user_exists st (UserSvc.uc_email d)); [discriminate|].
    injection Hreg as <- <-.
    unfold UserSvc.register_user at 1. rewrite Hmail.
    rewrite (user_exists_after_insert _ _ _ _ _ :
      UserSvc.user_exists _ (UserSvc.email {| UserSvc.u_name := UserSvc.uc_name d;
        UserSvc.email := UserSvc.uc_email d; UserSvc.password_hash := hash (UserSvc.uc_password d);
        UserSvc.u_is_active := true; UserSvc.u_created_at := UserSvc.u_clock st;
        UserSvc.u_updated_at := UserSvc.u_clock st + 1 |}) = true).
    reflexivity.
  - intros st d s p Hs Hne Hp. unfold ProductSvc.create_product. rewrite Hs.
    simpl. destruct (String.eqb_spec s "") as [E|_]; [contradiction|]. simpl.
    rewrite Hp. reflexivity.
  - intros st d c Hc. unfold ProductSvc.create_category. rewrite Hc. reflexivity.
Qed.

(** ** The status update: C4, C6, C3 *)

Lemma repo_update_order_status_found (oid : string) (s : OrderStatus) (n : option string)
    (w : World) (o : Order) :
  w_orders w !! oid = Some o ->
  exists o' w',
    repo_update_order_status oid s n w = (Ok (Some o'), w')
    /\ w_orders w' = <[oid := o']> (w_orders w)
    /\ status o' = s
    /\ user_id o' = user_id o
    /\ updated_at o' = w_clock w
    /\ w_clock w <= w_clock w'
    /\ milestone s o' = (if is_milestone s then Some (default (w_clock w + 1) (milestone s o))
                         else None)
    /\ (str_truthy n = true -> exists t, notes o' = append_note (notes o) t (default "" n))
    /\ (str_truthy n = false -> notes o' = notes o).
Proof.
  intros Hfound. unfold repo_update_order_status, bind, get_order. rewrite Hfound.
  unfold utcnow, stamp_milestone, ret.
  destruct s; simpl;
    [ | destruct (confirmed_at o) eqn:E | | destruct (shipped_at o) eqn:E
      | destruct (delivered_at o) eqn:E | | ];
    simpl; destruct (str_truthy n) eqn:Hn; simpl;
    eexists; eexists; (split; [reflexivity|]); simpl;
    repeat split; simpl; try rewrite E; try reflexivity; try lia; try discriminate;
    eexists; reflexivity.
Qed.

Lemma publish_status_event_ok (env : Env) (oid : string) (upd : OrderStatusUpdate)
    (o : Order) (w : World) :
  publish_status_event env oid upd o w = (Ok tt, snd (publish_status_event env oid upd o w))
  /\ core (snd (publish_status_event env oid upd o w)) = core w.
Proof.
  unfold publish_status_event.
  destruct (su_status upd);
    unfold publish_order_confirmed_event, publish_order_cancelled_event,
      publish_order_shipped_event, publish_order_delivered_event;
    try (split; [apply send_event_eq | apply send_event_shape]);
    split; reflexivity.
Qed.

Lemma update_order_status_found (env : Env) (oid : string) (upd : OrderStatusUpdate)
    (w : World) (o : Order) :
  w_orders w !! oid = Some o ->
  exists o' w',
    update_order_status env oid upd w = (Ok (oid, o'), w')
    /\ w_orders w' = <[oid := o']> (w_orders w)
    /\ w_clock w <= w_clock w'
    /\ status o' = su_status upd
    /\ milestone (su_status upd) o'
       = (if is_milestone (su_status upd)
          then Some (default (w_clock w + 1) (milestone (su_status upd) o)) else None)
    /\ (str_truthy (su_notes upd) = true ->
        exists t, notes o' = append_note (notes o) t (default "" (su_notes upd)))
    /\ (str_truthy (su_notes upd) = false -> notes o' = notes o).
Proof.
  intros Hfound.
  destruct (repo_update_order_status_found oid (su_status upd) (su_notes upd) w o Hfound)
    as (o' & w1 & Hrun & Hst & Hs & _ & _ & Hclk & Hm & Hn1 & Hn2).
  destruct (publish_status_event_ok env oid upd o' w1) as [Hp Hc].
  unfold update_order_status, bind. rewrite Hrun, Hp.
  exists o', (snd (publish_status_event env oid upd o' w1)).
  unfold core in Hc. injection Hc as Ho _ _ Hk _.
  split; [reflexivity|].
  repeat split; try congruence; try lia; assumption.
Qed.

(** C4: setting a milestone status ([confirmed], [shipped], [delivered])
    stamps its timestamp only when it is not already set (with a fresh
    instant of the clock); setting the same status again keeps the
    timestamp of the first time. *)
Theorem status_milestone_idempotent :
  forall (env : Env) (oid : string) (s : OrderStatus) (n1 n2 : option string) (w : World) (o : Order),
    is_milestone s = true ->
    w_orders w !! oid = Some o ->
    exists o1 w1 o2 w2,
      update_order_status env oid {| su_status := s; su_notes := n1 |} w = (Ok (oid, o1), w1)
      /\ milestone s o1 = Some (default (w_clock w + 1) (milestone s o))
      /\ update_order_status env oid {| su_status := s; su_notes := n2 |} w1 = (Ok (oid, o2), w2)
      /\ milestone s o2 = milestone s o1.
Proof.
  intros env oid s n1 n2 w o Hms Hfound.
  destruct (update_order_status_found env oid {| su_status := s; su_notes := n1 |} w o Hfound)
    as (o1 & w1 & Hr1 & Hst1 & _ & _ & Hm1 & _ & _).
  assert (Hf1 : w_orders w1 !! oid = Some o1) by (rewrite Hst1; apply lookup_insert_eq).
  destruct (update_order_status_found env oid {| su_status := s; su_notes := n2 |} w1 o1 Hf1)
    as (o2 & w2 & Hr2 & _ & _ & _ & Hm2 & _ & _).
  simpl in Hm1, Hm2. rewrite Hms in Hm1, Hm2.
  exists o1, w1, o2, w2. split; [exact Hr1|]. split; [exact Hm1|]. split; [exact Hr2|].
  rewrite Hm2, Hm1. reflexivity.
Qed.

(** C6: [update_order_status] fails with NotFound, changing nothing, when
    the order is absent; otherwise, whatever the current status, it sets
    the target status, stores the order, and appends a timestamped note
    exactly when non-empty notes are supplied. *)
Theorem update_order_status_unconditional :
  forall (env : Env) (oid : string) (upd : OrderStatusUpdate) (w : World),
    (w_orders w !! oid = None ->
     update_order_status env oid upd w = (Raise (HTTPException HTTP_404_NOT_FOUND "Order not found"), w))
    /\ (forall o, w_orders w !! oid = Some o ->
        exists o' w',
          update_order_status env oid upd w = (Ok (oid, o'), w')
          /\ status o' = su_status upd
          /\ w_orders w' !! oid = Some o'
          /\ (str_truthy (su_notes upd) = true ->
              exists t, notes o' = append_note (notes o) t (default "" (su_notes upd)))
          /\ (str_truthy (su_notes upd) = false -> notes o' = notes o)).
Proof.
  intros env oid upd w. split.
  - intros Hnone. unfold update_order_status, repo_update_order_status, bind, get_order.
    rewrite Hnone. reflexivity.
  - intros o Hfound.
    destruct (update_order_status_found env oid upd w o Hfound)
      as (o' & w' & Hr & Hst & _ & Hs & _ & Hn1 & Hn2).
    exists o', w'. repeat split; try assumption.
    rewrite Hst. apply lookup_insert_eq.
Qed.

(** C3: [cancel_order] fails with Unauthorized for a token that does not
    resolve, then NotFound for a missing order, then Forbidden for another
    user's order, then BadRequest for an order shipped, delivered,
    cancelled or refunded; from pending, confirmed or processing it
    succeeds, storing the order as cancelled with the customer note. *)
Theorem cancel_order_outcomes :
  forall (env : Env) (oid tok : string) (w : World),
    (verify_user_token env tok = None ->
     exists d, fst (cancel_order env oid tok w) = Raise (HTTPException HTTP_401_UNAUTHORIZED d))
    /\ (forall ui, verify_user_token env tok = Some ui -> w_orders w !! oid = None ->
        exists d, fst (cancel_order env oid tok w) = Raise (HTTPException HTTP_404_NOT_FOUND d))
    /\ (forall ui o, verify_user_token env tok = Some ui -> w_orders w !! oid = Some o ->
        user_id o <> ui_id ui ->
        exists d, fst (cancel_order env oid tok w) = Raise (HTTPException HTTP_403_FORBIDDEN d))
    /\ (forall ui o, verify_user_token env tok = Some ui -> w_orders w !! oid = Some o ->
        user_id o = ui_id ui ->
        In (status o) [SHIPPED; DELIVERED; CANCELLED; REFUNDED] ->
        exists d, fst (cancel_order env oid tok w) = Raise (HTTPException HTTP_400_BAD_REQUEST d))
    /\ (forall ui o, verify_user_token env tok = Some ui -> w_orders w !! oid = Some o ->
        user_id o = ui_id ui ->
        In (status o) [PENDING; CONFIRMED; PROCESSING] ->
        exists o' w', cancel_order env oid tok w = (Ok (oid, o'), w')
          /\ status o' = CANCELLED
          /\ w_orders w' !! oid = Some o'
          /\ exists t, notes o' = append_note (notes o) t "Cancelled by customer").
Proof.
  intros env oid tok w.
  unfold cancel_order, bind, get_order.
  split; [|split; [|split; [|split]]].
  - intros H. rewrite H. eexists. reflexivity.
  - intros ui H Hn. rewrite H, Hn. eexists. reflexivity.
  - intros ui o H Ho Hne. rewrite H, Ho.
    destruct (String.eqb_spec (user_id o) (ui_id ui)); [contradiction|].
    eexists. reflexivity.
  - intros ui o H Ho Heq Hst. rewrite H, Ho.
    destruct (String.eqb_spec (user_id o) (ui_id ui)); [|contradiction]. simpl.
    unfold is_cancellable.
    destruct Hst as [E|[E|[E|[E|[]]]]]; rewrite <- E; eexists; reflexivity.
  - intros ui o H Ho Heq Hst. rewrite H, Ho.
    destruct (String.eqb_spec (user_id o) (ui_id ui)); [|contradiction]. simpl.
    replace (is_cancellable o) with true
      by (unfold is_cancellable; destruct Hst as [E|[E|[E|[]]]]; rewrite <- E; reflexivity).
    simpl.
    destruct (repo_update_order_status_found oid CANCELLED (Some "Cancelled by customer") w o Ho)
      as (o' & w1 & Hr & Hst1 & Hs & _ & _ & _ & _ & Hn1 & _).
    rewrite Hr.
    match goal with
    | |- context [publish_order_cancelled_event env ?d w1] =>
        destruct (publish_cancelled_eq env d w1) as [E1 C1]; rewrite E1
    end.
    eexists o', _. split; [reflexivity|]. split; [exact Hs|]. split.
    + unfold core in C1. injection C1 as Ho1 _ _ _ _. rewrite Ho1, Hst1. apply lookup_insert_eq.
    + apply Hn1. reflexivity.
Qed.

(** ** C2: reservation failure *)

Lemma filter_length_le_gen {A} (f : A -> bool) (l : list A) : (length (List.filter f l) <= length l)%nat.
Proof. induction l as [|x l IH]; simpl; [lia|]. destruct (f x); simpl; lia. Qed.

Lemma filter_length_lt_gen {A} (f : A -> bool) (l : list A) :
  (exists x, In x l /\ f x = false) -> (length (List.filter f l) < length l)%nat.
Proof.
  induction l as [|y l IH]; intros (x & Hin & Hf); [destruct Hin|].
  simpl. destruct Hin as [<-|Hin].
  - rewrite Hf. pose proof (filter_length_le_gen f l). lia.
  - destruct (f y); simpl; [|pose proof (filter_length_le_gen f l); lia].
    assert (length (List.filter f l) < length l)%nat by (apply IH; exists x; split; assumption). lia.
Qed.

Lemma reservation_detail_lines (env : Env) (its : list OrderItemCreate) :
  reservation_error_detail (reserve_products env its)
  = ("Product reservation failed: " ++ String.concat "; " (map (line_failure env) (List.filter (line_fails env) its)))%string.
Proof.
  unfold reservation_error_detail, reserve_products. simpl. f_equal. f_equal.
  induction its as [|it its IH]; simpl; [reflexivity|].
  unfold reserve_one in *. unfold line_fails at 1.
  destruct (available (check_product_availability env (ic_product_id it) (ic_quantity it))) eqn:E;
    simpl; [exact IH|]. rewrite IH. reflexivity.
Qed.

Lemma reserve_success_false (env : Env) (its : list OrderItemCreate) :
  (exists it, In it its /\ line_fails env it = true) -> success (reserve_products env its) = false.
Proof.
  intros (it & Hin & Hf). unfold reserve_products. simpl.
  apply Z.eqb_neq. intros Heq. apply Nat2Z.inj in Heq.
  assert (length (List.filter (fun r => reserved r) (map (reserve_one env) its)) < length (map (reserve_one env) its))%nat.
  { apply filter_length_lt_gen. exists (reserve_one env it). split; [apply in_map; exact Hin|].
    unfold line_fails in Hf. unfold reserve_one.
    destruct (available _); [discriminate|reflexivity]. }
  rewrite length_map in H. lia.
Qed.

(** C2: when the token resolves but some requested line fails its
    availability check, [create_order] fails with BadRequest whose detail
    lists, in request order, "Product <id>: <reason>" for every failing
    line, and the world is left exactly as it was (no order, no address
    written). Each reason is one of the four of the availability check. *)
Theorem create_order_reservation_failure :
  forall (env : Env) (order_data : OrderCreate) (user_token : string) (w : World) (ui : UserInfo),
    verify_user_token env user_token = Some ui ->
    (exists it, In it (oc_items order_data) /\ line_fails env it = true) ->
    create_order env order_data user_token w
      = (Raise (HTTPException HTTP_400_BAD_REQUEST
                  ("Product reservation failed: " ++
                   String.concat "; " (map (line_failure env) (List.filter (line_fails env) (oc_items order_data))))%string), w)
    /\ (forall it, In it (oc_items order_data) -> line_fails env it = true ->
        In (av_reason (check_product_availability env (ic_product_id it) (ic_quantity it)))
           [Some "Product not found"; Some "Product not available"; Some "Insufficient stock";
            Some "Service error"]%string).
Proof.
  intros env od tok w ui Hv Hfail. split.
  - unfold create_order, create_order_body, try_except. rewrite Hv.
    rewrite (reserve_success_false env _ Hfail). simpl.
    rewrite reservation_detail_lines. reflexivity.
  - intros it _ Hf. unfold line_fails in Hf. unfold check_product_availability in *.
    destruct (get_product_by_id env (ic_product_id it)) as [p| |]; simpl in *.
    + destruct (negb (default false (pj_is_available p))); simpl in *; [tauto|].
      destruct (Z.ltb _ _); simpl in *; [tauto | discriminate].
    + tauto.
    + tauto.
Qed.

(** ** C5: the derived total *)

Lemma shr_1_nonneg (mrs : shr_record) : 0 <= shr_m mrs -> 0 <= shr_m (shr_1 mrs).
Proof. destruct mrs as [[|[p|p|]|p] r s]; simpl; lia. Qed.

Lemma iter_shr_1_nonneg (p : positive) : forall mrs, 0 <= shr_m mrs -> 0 <= shr_m (SpecFloat.iter_pos shr_1 p mrs).
Proof.
  induction p as [p IH|p IH|]; intros mrs H; simpl.
  - apply IH, IH, shr_1_nonneg, H.
  - apply IH, IH, H.
  - apply shr_1_nonneg, H.
Qed.

Lemma shr_fexp_nonneg (m e : Z) (l : location) :
  0 <= m -> 0 <= shr_m (fst (shr_fexp prec emax m e l)).
Proof.
  intros H. unfold shr_fexp, shr.
  assert (Hl : 0 <= shr_m (shr_record_of_loc m l)) by (destruct l as [|[]]; exact H).
  destruct (_ - e); simpl; [exact Hl| apply iter_shr_1_nonneg, Hl| exact Hl].
Qed.

Lemma round_nearest_even_nonneg (m : Z) (l : location) : 0 <= m -> 0 <= round_nearest_even m l.
Proof. intros H. destruct l as [|[]]; simpl; try destruct (Z.even m); lia. Qed.

(** Rounding a non-negative mantissa with a clear sign bit never yields NaN
    nor a negative value. *)
Lemma binary_round_aux_nonneg (mx ex : Z) (lx : location) :
  0 <= mx -> fle zero (binary_round_aux prec emax false mx ex lx) = true.
Proof.
  intros H. unfold binary_round_aux.
  pose proof (shr_fexp_nonneg mx ex lx H) as H1.
  destruct (shr_fexp prec emax mx ex lx) as [mrs' e'] eqn:E1. simpl in H1.
  pose proof (shr_fexp_nonneg (round_nearest_even (shr_m mrs') (loc_of_shr_record mrs')) e' loc_Exact
                (round_nearest_even_nonneg _ _ H1)) as H2.
  destruct (shr_fexp prec emax _ e' loc_Exact) as [mrs'' e''] eqn:E2. simpl in H2.
  destruct (shr_m mrs'') as [|m|m]; [reflexivity| |lia].
  destruct (Z.leb e'' (emax - prec)); reflexivity.
Qed.

Lemma fdiv_pos_nonneg (m1 m2 : positive) (e1 e2 : Z) :
  fle zero (fdiv (S754_finite false m1 e1) (S754_finite false m2 e2)) = true.
Proof.
  unfold fdiv, SFdiv, SFdiv_core_binary. cbv zeta.
  match goal with |- context [Z.div_eucl ?a ?b] => set (m' := a); set (d := b) end.
  assert (Hm : 0 <= m').
  { unfold m'. match goal with |- 0 <= match ?s with _ => _ end => destruct s end;
    [lia| apply Z.shiftl_nonneg; lia| lia]. }
  destruct (Z.div_eucl m' d) as [q r] eqn:Ed.
  assert (Hq : q = m' / d) by (unfold Z.div; rewrite Ed; reflexivity).
  apply binary_round_aux_nonneg. rewrite Hq. apply Z.div_pos; [exact Hm| unfold d; lia].
Qed.

Lemma of_Z_100_finite : exists m e, of_Z 100 = S754_finite false m e.
Proof. eexists _, _. vm_compute. reflexivity. Qed.

Lemma py_round2_nonneg (x : float) : fle zero x = true -> fle zero (py_round2 x) = true.
Proof.
  intros H. destruct x as [s|s| |s m e]; unfold py_round2; try exact H.
  destruct s; [discriminate H|].
  destruct (hundredths m e) as [|n|n]; try reflexivity.
  destruct of_Z_100_finite as (m2 & e2 & E). rewrite E. apply fdiv_pos_nonneg.
Qed.

Lemma py_max_zero_nonneg (x : float) : x <> S754_nan -> fle zero (py_max x zero) = true.
Proof.
  intros H. unfold py_max, flt, fle, zero.
  destruct x as [s|[]| |[] m e]; simpl; try reflexivity. contradiction.
Qed.

(** C5 (counterexample): with [discount_amount = float('nan')] the sum is
    NaN, [max(nan, 0)] is NaN and [round(nan, 2)] is NaN, so the constructed
    order's [total_amount] is NaN and [total_amount >= 0] is false. *)
Lemma order_total_nan_discount :
  total_amount (Order_new (args_demo (of_Z 50) (of_Z 4) (of_Z 10) nan (of_Z 64)) 0 0) = nan
  /\ fle zero (total_amount (Order_new (args_demo (of_Z 50) (of_Z 4) (of_Z 10) nan (of_Z 64)) 0 0)) = false.
Proof. split; vm_compute; reflexivity. Qed.

(** C5 (amended): an [Order]'s [total_amount] is always derived: it equals
    [round(max(subtotal + tax_amount + shipping_cost - discount_amount, 0), 2)]
    computed from the validated fields, where [subtotal] is the validated one
    (recomputed from the items when there are any); the supplied
    [total_amount] has no influence; and [total_amount >= 0] holds whenever
    the pre-clamp sum is not NaN (in particular whenever the discount exceeds
    the rest). *)
Theorem order_total_derived :
  forall (a : OrderArgs) (created updated : timestamp),
    subtotal (Order_new a created updated) = calculate_subtotal (a_subtotal a) (a_items a)
    /\ total_amount (Order_new a created updated)
       = py_round2 (py_max (pre_clamp_total (Order_new a created updated)) zero)
    /\ (forall t, total_amount (Order_new (with_supplied_total a t) created updated)
                  = total_amount (Order_new a created updated))
    /\ (pre_clamp_total (Order_new a created updated) <> nan ->
        fle zero (total_amount (Order_new a created updated)) = true).
Proof.
  intros a c u. split; [reflexivity|]. split; [reflexivity|]. split; [reflexivity|].
  intros Hn. change (total_amount (Order_new a c u))
    with (py_round2 (py_max (pre_clamp_total (Order_new a c u)) zero)).
  apply py_round2_nonneg, py_max_zero_nonneg, Hn.
Qed.

(** ** C1: the totals of a created order *)

(** C1: the spec's example holds (two units at 30: subtotal 60, tax 4.80,
    shipping 10, total 74.80), but shipping is decided on the unrounded
    running float sum of the line totals, not on the persisted subtotal: for
    lines priced 18.92, 17.93, 37.66 and 25.49 (one unit each) the running
    sum is 99.99999999999999, so shipping is 10.00, while the persisted
    subtotal is round(sum, 2) = 100.00, tax 8.00 and total 118.00; the claim
    asks for shipping 0.00 and total 108.00 on a subtotal of 100.00. *)
Theorem create_order_shipping_unrounded :
  outcome (create_order (env_prices [("A", of_Z 30)]) (req [("A", 2)]) "tok" w0)
    = Some (of_Z 60, lit 48 1, lit 100 1, lit 748 1)
  /\ outcome (create_order prices4 basket4 "tok" w0)
    = Some (of_Z 100, of_Z 8, lit 100 1, of_Z 118)
  /\ flt (of_Z 100) (of_Z 100) = false
  /\ py_round2 (fadd (fadd (of_Z 100) (of_Z 8)) zero) = of_Z 108.
Proof. repeat split; vm_compute; reflexivity. Qed.

(** ** Witnesses *)

Lemma create_order_reservation_failure_witness :
  verify_user_token env_A "tok" = Some ui1
  /\ fst (create_order env_A (req [("A", 1); ("B", 1)]) "tok" w0)
     = Raise (HTTPException HTTP_400_BAD_REQUEST "Product reservation failed: Product B: Product not found").
Proof.
  split; [reflexivity|].
  destruct (create_order_reservation_failure env_A (req [("A", 1); ("B", 1)]) "tok" w0 ui1 eq_refl)
    as [E _].
  { exists {| ic_product_id := "B"; ic_quantity := 1 |}.
    split; [right; left; reflexivity | vm_compute; reflexivity]. }
  rewrite E. vm_compute. reflexivity.
Defined.

Lemma cancel_order_outcomes_witness :
  (exists d, fst (cancel_order env_A "oid1" "bad" w_demo) = Raise (HTTPException HTTP_401_UNAUTHORIZED d))
  /\ (exists d, fst (cancel_order env_A "oid1" "tok" w0) = Raise (HTTPException HTTP_404_NOT_FOUND d))
  /\ (exists o' w', cancel_order env_A "oid1" "tok" w_demo = (Ok ("oid1", o'), w')
                    /\ status o' = CANCELLED /\ w_orders w' !! "oid1" = Some o').
Proof.
  destruct (cancel_order_outcomes env_A "oid1" "bad" w_demo) as [H401 _].
  destruct (cancel_order_outcomes env_A "oid1" "tok" w0) as (_ & H404 & _).
  destruct (cancel_order_outcomes env_A "oid1" "tok" w_demo) as (_ & _ & _ & _ & Hok).
  split; [exact (H401 eq_refl)|]. split; [exact (H404 ui1 eq_refl eq_refl)|].
  destruct (Hok ui1 order_demo eq_refl eq_refl eq_refl (or_introl eq_refl))
    as (o' & w' & E & Hs & Hl & _).
  exists o', w'. split; [exact E|]. split; [exact Hs | exact Hl].
Defined.

Lemma status_milestone_idempotent_witness :
  is_milestone CONFIRMED = true /\ w_orders w_demo !! "oid1" = Some order_demo
  /\ exists o1 w1 o2 w2,
      update_order_status env_A "oid1" {| su_status := CONFIRMED; su_notes := None |} w_demo
        = (Ok ("oid1", o1), w1)
      /\ milestone CONFIRMED o1 = Some (default (w_clock w_demo + 1) (milestone CONFIRMED order_demo))
      /\ update_order_status env_A "oid1" {| su_status := CONFIRMED; su_notes := Some "again" |} w1
        = (Ok ("oid1", o2), w2)
      /\ milestone CONFIRMED o2 = milestone CONFIRMED o1.
Proof.
  split; [reflexivity|]. split; [reflexivity|].
  exact (status_milestone_idempotent env_A "oid1" CONFIRMED None (Some "again") w_demo order_demo
           eq_refl eq_refl).
Defined.

Lemma update_order_status_unconditional_witness :
  w_orders w0 !! "oid1" = None
  /\ update_order_status env_A "oid1" ship_demo w0
     = (Raise (HTTPException HTTP_404_NOT_FOUND "Order not found"), w0)
  /\ w_orders w_demo !! "oid1" = Some order_demo
  /\ exists o' w', update_order_status env_A "oid1" ship_demo w_demo = (Ok ("oid1", o'), w')
                   /\ status o' = SHIPPED
                   /\ exists t, notes o' = append_note (notes order_demo) t "left the warehouse".
Proof.
  destruct (update_order_status_unconditional env_A "oid1" ship_demo w0) as [H404 _].
  destruct (update_order_status_unconditional env_A "oid1" ship_demo w_demo) as [_ Hok].
  split; [reflexivity|]. split; [exact (H404 eq_refl)|]. split; [reflexivity|].
  destruct (Hok order_demo eq_refl) as (o' & w' & E & Hs & _ & Hn & _).
  exists o', w'. split; [exact E|]. split; [exact Hs | exact (Hn eq_refl)].
Defined.

Lemma order_total_derived_witness :
  pre_clamp_total (Order_new (args_demo (of_Z 50) (of_Z 4) (of_Z 10) (of_Z 100) (of_Z 7)) 0 0) <> nan
  /\ fle zero (total_amount (Order_new (args_demo (of_Z 50) (of_Z 4) (of_Z 10) (of_Z 100) (of_Z 7)) 0 0)) = true.
Proof.
  assert (Hn : pre_clamp_total (Order_new (args_demo (of_Z 50) (of_Z 4) (of_Z 10) (of_Z 100) (of_Z 7)) 0 0) <> nan)
    by (vm_compute; discriminate).
  destruct (order_total_derived (args_demo (of_Z 50) (of_Z 4) (of_Z 10) (of_Z 100) (of_Z 7)) 0 0)
    as (_ & _ & _ & H).
  split; [exact Hn | exact (H Hn)].
Defined.

Lemma duplicate_unique_field_bad_request_witness :
  UserSvc.user_exists (snd (UserSvc.register_user hash_demo ustate0 alice)) (UserSvc.uc_email alice2) = true
  /\ UserSvc.register_user hash_demo (snd (UserSvc.register_user hash_demo ustate0 alice)) alice2
     = (Raise (HTTPException HTTP_400_BAD_REQUEST "User with this email already exists"),
        snd (UserSvc.register_user hash_demo ustate0 alice)).
Proof.
  assert (He : UserSvc.user_exists (snd (UserSvc.register_user hash_demo ustate0 alice))
                 (UserSvc.uc_email alice2) = true) by (vm_compute; reflexivity).
  destruct duplicate_unique_field_bad_request as (H & _).
  split; [exact He | exact (H hash_demo _ alice2 He)].
Defined.

Lemma update_stock_rejects_negative_witness :
  ProductSvc.products pst_demo !! "p1" = Some prod_demo
  /\ ProductSvc.stock_quantity prod_demo + (-5) < 0
  /\ ProductSvc.update_stock pst_demo "p1" (-5)
     = (Raise (HTTPException HTTP_400_BAD_REQUEST "Product not found or insufficient stock"), pst_demo)
  /\ stock_nonneg (snd (ProductSvc.update_stock pst_demo "p1" 2)).
Proof.
  assert (Hinv : stock_nonneg pst_demo).
  { intros q p H. cbn [ProductSvc.products pst_demo] in H.
    apply lookup_singleton_Some in H as [_ <-]. simpl. lia. }
  destruct (update_stock_rejects_negative pst_demo "p1" (-5)) as (Hneg & _).
  destruct (update_stock_rejects_negative pst_demo "p1" 2) as (_ & _ & Hkeep).
  split; [reflexivity|]. split; [simpl; lia|].
  split; [exact (proj2 (Hneg prod_demo eq_refl eq_refl)) | exact (Hkeep Hinv)].
Defined.

Lemma send_event_never_raises_witness :
  send_and_wait env_failing "order.created" (enrich "order.created" []) None <> Sent
  /\ w_events (snd (send_event env_failing "order.created" [] None w0)) = w_events w0
  /\ fst (create_order env_failing (req [("A", 2)]) "tok" w0) = fst (create_order env_A (req [("A", 2)]) "tok" w0).
Proof.
  destruct send_event_never_raises as [H1 H2].
  assert (Hne : send_and_wait env_failing "order.created" (enrich "order.created" []) None <> Sent)
    by discriminate.
  split; [exact Hne|]. split.
  - exact (proj1 (proj2 (proj2 (proj2 (H1 env_failing "order.created" [] None w0))) Hne)).
  - exact (proj1 (H2 env_A true true (fun _ _ _ => KafkaErrorRaised "broker down") (req [("A", 2)]) "tok" w0)).
Defined.

Lemma update_stock_availability_witness :
  ProductSvc.update_stock pst_demo "p1" (-3) = (Ok stock_demo_product, snd stock_demo)
  /\ ProductSvc.is_available stock_demo_product = false
  /\ ProductSvc.stock_quantity stock_demo_product = 0.
Proof.
  assert (E : ProductSvc.update_stock pst_demo "p1" (-3) = (Ok stock_demo_product, snd stock_demo))
    by (vm_compute; reflexivity).
  destruct (update_stock_availability pst_demo (snd stock_demo) "p1" (-3) stock_demo_product E)
    as (Ha & _ & old & Hold & Hq).
  split; [exact E|]. split.
  - rewrite Ha. vm_compute. reflexivity.
  - rewrite Hq. cbn [ProductSvc.products pst_demo] in Hold.
    rewrite lookup_singleton_eq in Hold. injection Hold as <-. reflexivity.
Defined.

(** * Properties of the remaining service functions *)

(** ** Order service: reads, payments and soft delete *)

(** X1: [OrderService.get_order_by_id] changes nothing and returns the stored order exactly when the token resolves, the order exists and the caller owns it; otherwise it raises 401, 404 or 403, checked in that order. *)
Theorem get_order_by_id_access :
  forall (env : Env) (oid tok : string) (w : World),
    snd (get_order_by_id env oid tok w) = w
    /\ (forall r, fst (get_order_by_id env oid tok w) = Ok r <->
          exists ui o, verify_user_token env tok = Some ui /\ w_orders w !! oid = Some o
                       /\ user_id o = ui_id ui /\ r = (oid, o))
    /\ (verify_user_token env tok = None ->
          fst (get_order_by_id env oid tok w)
          = Raise (HTTPException HTTP_401_UNAUTHORIZED "Invalid or expired token"))
    /\ (forall ui, verify_user_token env tok = Some ui -> w_orders w !! oid = None ->
          fst (get_order_by_id env oid tok w)
          = Raise (HTTPException HTTP_404_NOT_FOUND "Order not found"))
    /\ (forall ui o, verify_user_token env tok = Some ui -> w_orders w !! oid = Some o ->
          user_id o <> ui_id ui ->
          fst (get_order_by_id env oid tok w)
          = Raise (HTTPException HTTP_403_FORBIDDEN "Access denied")).
Proof.
  intros env oid tok w. unfold get_order_by_id, bind, get_order, ret, raise.
  destruct (verify_user_token env tok) as [ui|] eqn:Hv.
  - destruct (w_orders w !! oid) as [o|] eqn:Ho.
    + destruct (String.eqb_spec (user_id o) (ui_id ui)) as [Heq|Hne]; simpl.
      * repeat split; try congruence.
        -- intros H. injection H as <-. exists ui, o. auto.
        -- intros (ui' & o' & H1 & H2 & H3 & ->). congruence.
      * repeat split; try congruence.
        -- intros (ui' & o' & H1 & H2 & H3 & ->). congruence.
    + simpl. repeat split; try congruence.
      intros (ui' & o' & H1 & H2 & H3 & ->). congruence.
  - simpl. repeat split; try congruence.
    intros (ui' & o' & H1 & H2 & H3 & ->). congruence.
Qed.

Lemma send_event_orders (env : Env) topic d k (w : World) :
  w_orders (snd (send_event env topic d k w)) = w_orders w.
Proof.
  destruct (send_event_shape env topic d k w) as [_ Hc]. unfold core in Hc. congruence.
Qed.

(** X2: [OrderService.update_payment_status] raises 404 for a missing order; for a stored one it saves and returns it with the new payment status, the transaction id and payment method replaced only when given non-empty, [updated_at] the current time, and status, notes, items, total and milestones unchanged. *)
Theorem update_payment_status_outcome :
  forall (env : Env) (oid : string) (pu : PaymentUpdate) (w : World),
    (w_orders w !! oid = None ->
       update_payment_status env oid pu w
       = (Raise (HTTPException HTTP_404_NOT_FOUND "Order not found"), w))
    /\ (forall o, w_orders w !! oid = Some o ->
          exists o' w', update_payment_status env oid pu w = (Ok (oid, o'), w')
            /\ w_orders w' = <[oid := o']> (w_orders w)
            /\ payment_status o' = pu_payment_status pu
            /\ payment_transaction_id o' = (if str_truthy (pu_payment_transaction_id pu)
                                            then pu_payment_transaction_id pu
                                            else payment_transaction_id o)
            /\ payment_method o' = (if str_truthy (pu_payment_method pu)
                                    then pu_payment_method pu else payment_method o)
            /\ updated_at o' = w_clock w
            /\ status o' = status o /\ notes o' = notes o /\ items o' = items o
            /\ total_amount o' = total_amount o
            /\ confirmed_at o' = confirmed_at o /\ shipped_at o' = shipped_at o
            /\ delivered_at o' = delivered_at o).
Proof.
  intros env oid pu w. split.
  - intros Ho. unfold update_payment_status, repo_update_payment_status, bind, get_order, ret, raise.
    rewrite Ho. reflexivity.
  - intros o Ho.
    unfold update_payment_status, repo_update_payment_status, bind at 1 2, get_order.
    rewrite Ho. unfold bind at 1, utcnow. simpl.
    destruct (str_truthy (pu_payment_transaction_id pu)) eqn:Ht;
      destruct (str_truthy (pu_payment_method pu)) eqn:Hm;
      unfold bind, save_order, ret; simpl;
      destruct (pu_payment_status pu) eqn:Hs;
      unfold publish_payment_completed_event, publish_payment_failed_event;
      try (rewrite send_event_eq);
      (eexists; eexists; split; [reflexivity|]);
      try (rewrite send_event_orders); simpl;
      try (rewrite insert_insert_eq);
      repeat split; try congruence.
Qed.

(** X3: With a working broker, [update_payment_status] emits one ["order.payment_completed"] event for PAID, one ["order.payment_failed"] event carrying the failure reason for FAILED, and no event for any other payment status. *)
Theorem update_payment_status_events :
  forall (env : Env) (snd_wait : string -> jv -> option string -> SendOutcome)
         (oid : string) (pu : PaymentUpdate) (w : World) (o : Order),
    w_orders w !! oid = Some o ->
    (forall t v k, snd_wait t v k = Sent) ->
    let w' := snd (update_payment_status (with_transport env true true snd_wait) oid pu w) in
    match pu_payment_status pu with
    | PAID => exists e, w_events w' = w_events w ++ [e]
                /\ ev_topic e = "order-events" /\ ev_key e = Some oid
                /\ dget (event_data e) "event_type" = JStr "order.payment_completed"
                /\ dget (event_data e) "order_id" = JStr oid
    | FAILED => exists e, w_events w' = w_events w ++ [e]
                /\ ev_topic e = "order-events" /\ ev_key e = Some oid
                /\ dget (event_data e) "event_type" = JStr "order.payment_failed"
                /\ dget (event_data e) "order_id" = JStr oid
                /\ dget (event_data e) "failure_reason" = JStr "Payment processing failed"
    | _ => w_events w' = w_events w
    end.
Proof.
  intros env snd_wait oid pu w o Ho Hsent. cbv zeta.
  unfold update_payment_status, repo_update_payment_status, bind, get_order, utcnow,
    save_order, ret.
  rewrite Ho. simpl.
  destruct (str_truthy (pu_payment_transaction_id pu));
    destruct (str_truthy (pu_payment_method pu)); simpl;
    destruct (pu_payment_status pu);
    unfold publish_payment_completed_event, publish_payment_failed_event, send_event; simpl;
    rewrite ?Hsent; simpl; try reflexivity;
    (eexists; split; [reflexivity | repeat split]).
Qed.

(** X4: [OrderRepository.delete_order] succeeds exactly for a stored cancellable order, which is then kept as CANCELLED with its other data and no event; otherwise nothing changes, and a second delete of the same order returns False. *)
Theorem repo_delete_order_soft :
  forall (oid : string) (w : World),
    (fst (repo_delete_order oid w) = Ok true <->
       exists o, w_orders w !! oid = Some o /\ is_cancellable o = true)
    /\ (fst (repo_delete_order oid w) = Ok false -> snd (repo_delete_order oid w) = w)
    /\ (forall o, w_orders w !! oid = Some o -> is_cancellable o = true ->
          exists o', w_orders (snd (repo_delete_order oid w)) = <[oid := o']> (w_orders w)
                     /\ status o' = CANCELLED /\ notes o' = notes o
                     /\ payment_status o' = payment_status o /\ items o' = items o
                     /\ total_amount o' = total_amount o
                     /\ w_events (snd (repo_delete_order oid w)) = w_events w)
    /\ fst (repo_delete_order oid (snd (repo_delete_order oid w))) = Ok false.
Proof.
  intros oid w. unfold repo_delete_order, bind, get_order, utcnow, save_order, ret.
  destruct (w_orders w !! oid) as [o|] eqn:Ho.
  - destruct (is_cancellable o) eqn:Hc; simpl.
    + rewrite lookup_insert_eq. simpl. split; [|split; [|split]].
      * split; [intros _; exists o; auto | reflexivity].
      * discriminate.
      * intros o0 Ho0 _. assert (o0 = o) as -> by congruence.
        eexists. repeat split; reflexivity.
      * reflexivity.
    + rewrite Ho, Hc. split; [|split; [|split]].
      * split; [discriminate | intros (o' & H1 & H2); congruence].
      * reflexivity.
      * intros o0 Ho0 Hc0. congruence.
      * reflexivity.
  - simpl. rewrite Ho. split; [|split; [|split]].
    + split; [discriminate | intros (o' & H1 & H2); congruence].
    + reflexivity.
    + intros o0 Ho0. congruence.
    + reflexivity.
Qed.


(** ** Order service: the user's order list *)

Lemma insert_created_desc_perm x l : Permutation (insert_created_desc x l) (x :: l).
Proof.
  induction l as [|y r IH]; simpl; [reflexivity|].
  destruct (created_at (snd y) <? created_at (snd x)); [reflexivity|].
  rewrite IH. apply perm_swap.
Qed.

Lemma insert_created_desc_hd x y l :
  created_desc y x -> HdRel created_desc y l -> HdRel created_desc y (insert_created_desc x l).
Proof.
  intros Hyx Hl. destruct l as [|z r]; simpl; [constructor; exact Hyx|].
  destruct (created_at (snd z) <? created_at (snd x)); constructor; [exact Hyx|].
  inversion Hl; assumption.
Qed.

Lemma insert_created_desc_sorted x l :
  Sorted created_desc l -> Sorted created_desc (insert_created_desc x l).
Proof.
  induction l as [|y r IH]; intros Hs; simpl; [constructor; constructor|].
  destruct (Z.ltb_spec (created_at (snd y)) (created_at (snd x))) as [Hlt|Hge].
  - constructor; [exact Hs|]. constructor. unfold created_desc. lia.
  - apply Sorted_inv in Hs as [Hr Hh].
    constructor; [apply IH, Hr|]. apply insert_created_desc_hd; [unfold created_desc; lia | exact Hh].
Qed.

Lemma sort_created_desc_gen l acc :
  Sorted created_desc acc ->
  Sorted created_desc (fold_left (fun acc x => insert_created_desc x acc) l acc)
  /\ Permutation (fold_left (fun acc x => insert_created_desc x acc) l acc) (l ++ acc).
Proof.
  revert acc. induction l as [|x l IH]; intros acc Hs; simpl; [split; [exact Hs | reflexivity]|].
  destruct (IH (insert_created_desc x acc) (insert_created_desc_sorted x acc Hs)) as [H1 H2].
  split; [exact H1|]. rewrite H2, insert_created_desc_perm. symmetry. apply Permutation_middle.
Qed.

Lemma sort_created_desc_spec l :
  Sorted created_desc (sort_created_desc l) /\ Permutation (sort_created_desc l) l.
Proof.
  unfold sort_created_desc. destruct (sort_created_desc_gen l [] (Sorted_nil _)) as [H1 H2].
  rewrite app_nil_r in H2. split; assumption.
Qed.

Lemma sorted_skipn {A} (R : A -> A -> Prop) n l : Sorted R l -> Sorted R (skipn n l).
Proof.
  revert l. induction n as [|n IH]; intros l Hs; [exact Hs|].
  destruct l as [|x l]; [constructor|]. apply Sorted_inv in Hs as [Hs _]. apply IH, Hs.
Qed.

Lemma sorted_firstn {A} (R : A -> A -> Prop) n l : Sorted R l -> Sorted R (firstn n l).
Proof.
  revert l. induction n as [|n IH]; intros l Hs; [constructor|].
  destruct l as [|x l]; [constructor|]. simpl. apply Sorted_inv in Hs as [Hs Hh].
  constructor; [apply IH, Hs|].
  destruct n; [constructor|]. destruct l as [|y l]; simpl; constructor. inversion Hh; assumption.
Qed.

Lemma in_firstn_gen {A} n (l : list A) x : In x (firstn n l) -> In x l.
Proof. intros H. rewrite <- (firstn_skipn n l). apply in_or_app. left. exact H. Qed.

Lemma in_skipn_gen {A} n (l : list A) x : In x (skipn n l) -> In x l.
Proof. intros H. rewrite <- (firstn_skipn n l). apply in_or_app. right. exact H. Qed.

Lemma filter_ext_gen {A} (f g : A -> bool) (l : list A) :
  (forall a, f a = g a) -> List.filter f l = List.filter g l.
Proof. intros H. induction l as [|a l IH]; simpl; [reflexivity|]. rewrite H, IH. reflexivity. Qed.

Lemma get_user_orders_ok (env : Env) (tok : string) (st : option OrderStatus) (page pp : Z)
    (w : World) (ui : UserInfo) :
  verify_user_token env tok = Some ui -> 1 <= page -> 1 <= pp -> ui_id ui <> "" ->
  get_user_orders env tok st page pp w =
    (Ok {| ol_orders := firstn (Z.to_nat pp) (skipn (Z.to_nat ((page - 1) * pp))
                          (sort_created_desc (matching_orders w (ui_id ui) st)));
           ol_total := Z.of_nat (length (matching_orders w (ui_id ui) st));
           ol_page := page; ol_per_page := pp;
           ol_total_pages := (Z.of_nat (length (matching_orders w (ui_id ui) st)) + pp - 1) / pp |}, w).
Proof.
  intros Hv Hp Hpp Hu.
  unfold get_user_orders. rewrite Hv.
  unfold bind, repo_get_orders_by_user, skip_limit, count_orders, ret.
  replace (Z.ltb ((page - 1) * pp) 0) with false by (symmetry; apply Z.ltb_ge; nia).
  replace (Z.eqb pp 0) with false by (symmetry; apply Z.eqb_neq; lia).
  replace (Z.abs pp) with pp by lia.
  assert (Hc : List.filter (fun q => count_query st None (Some (ui_id ui)) (snd q))
                 (map_to_list (w_orders w)) = matching_orders w (ui_id ui) st).
  { unfold matching_orders. apply filter_ext_gen. intros q. unfold count_query, str_truthy.
    destruct (String.eqb_spec (ui_id ui) ""); [contradiction|]. simpl.
    rewrite andb_true_r, andb_comm. reflexivity. }
  rewrite Hc. reflexivity.
Qed.

Lemma ceil_div_bounds (t pp : Z) :
  0 <= t -> 1 <= pp -> ((t + pp - 1) / pp - 1) * pp < t <= (t + pp - 1) / pp * pp.
Proof.
  intros Ht Hpp.
  pose proof (Z.div_mod (t + pp - 1) pp ltac:(lia)) as Hd.
  pose proof (Z.mod_pos_bound (t + pp - 1) pp ltac:(lia)) as Hm.
  nia.
Qed.

(** X5: For a valid token and [page, per_page >= 1], [get_user_orders] changes nothing and returns the caller's matching orders newest first, at most [per_page] of them from offset [(page - 1) * per_page], with [total] their count and [total_pages] the ceiling of [total / per_page]. *)
Theorem get_user_orders_page :
  forall (env : Env) (tok : string) (st : option OrderStatus) (page pp : Z) (w : World)
         (ui : UserInfo),
    verify_user_token env tok = Some ui -> 1 <= page -> 1 <= pp -> ui_id ui <> "" ->
    exists resp, get_user_orders env tok st page pp w = (Ok resp, w)
      /\ ol_total resp = Z.of_nat (length (matching_orders w (ui_id ui) st))
      /\ (forall q, In q (ol_orders resp) -> In q (matching_orders w (ui_id ui) st))
      /\ Sorted created_desc (ol_orders resp)
      /\ Z.of_nat (length (ol_orders resp)) = Z.min pp (Z.max 0 (ol_total resp - (page - 1) * pp))
      /\ (ol_total_pages resp - 1) * pp < ol_total resp <= ol_total_pages resp * pp.
Proof.
  intros env tok st page pp w ui Hv Hp Hpp Hu.
  rewrite (get_user_orders_ok env tok st page pp w ui Hv Hp Hpp Hu).
  eexists. split; [reflexivity|]. simpl.
  destruct (sort_created_desc_spec (matching_orders w (ui_id ui) st)) as [Hs Hperm].
  split; [reflexivity|]. split; [|split; [|split]].
  - intros q Hq. apply (Permutation_in _ Hperm).
    apply in_firstn_gen in Hq. apply in_skipn_gen in Hq. exact Hq.
  - apply sorted_firstn, sorted_skipn, Hs.
  - rewrite length_firstn, length_skipn, (Permutation_length Hperm).
    assert (0 <= (page - 1) * pp) by nia.
    generalize dependent ((page - 1) * pp). intros. lia.
  - apply ceil_div_bounds; lia.
Qed.



(** X7: For a token that does not resolve, [get_user_orders] raises a Python error (the missing [status.HTTP_401_UNAUTHORIZED] attribute), never an HTTP exception, and changes nothing. *)
Theorem get_user_orders_invalid_token :
  forall (env : Env) (tok : string) (st : option OrderStatus) (page pp : Z) (w : World),
    verify_user_token env tok = None ->
    snd (get_user_orders env tok st page pp w) = w
    /\ (exists msg, fst (get_user_orders env tok st page pp w) = Raise (PyError msg))
    /\ (forall code detail,
          fst (get_user_orders env tok st page pp w) <> Raise (HTTPException code detail)).
Proof.
  intros env tok st page pp w Hv. unfold get_user_orders. rewrite Hv. simpl.
  split; [reflexivity | split; [eexists; reflexivity | discriminate]].
Qed.


(** ** Order service: statistics *)

Lemma count_status_partition (os : list Order) :
  Z.of_nat (length os) =
    count_status os PENDING + count_status os CONFIRMED + count_status os PROCESSING
    + count_status os SHIPPED + count_status os DELIVERED + count_status os CANCELLED
    + count_status os REFUNDED.
Proof.
  unfold count_status. induction os as [|o os IH]; [reflexivity|].
  simpl. destruct (status o); simpl; lia.
Qed.

Lemma stats_fold_counts (mongo_sum : list float -> float) (os : list Order) :
  let st := fold_left stats_step (group_by_status mongo_sum os) stats0 in
  total_orders st = Z.of_nat (length os)
  /\ pending_orders st = count_status os PENDING
  /\ confirmed_orders st = count_status os CONFIRMED
  /\ processing_orders st = count_status os PROCESSING
  /\ shipped_orders st = count_status os SHIPPED
  /\ delivered_orders st = count_status os DELIVERED
  /\ cancelled_orders st = count_status os CANCELLED
  /\ average_order_value st = zero.
Proof.
  cbv zeta. rewrite count_status_partition. unfold count_status, group_by_status, all_statuses.
  cbn [flat_map app].
  repeat match goal with
         | |- context [match List.filter ?f os with [] => _ | _ :: _ => _ end] =>
             destruct (List.filter f os)
         end; simpl; repeat split; lia.
Qed.

(** X8: [OrderRepository.get_order_stats] changes nothing; its per-status counts are the numbers of stored orders with each status, the total is their sum plus the refunded orders, and the average is 0 for no orders and the rounded mean of the totals otherwise. *)
Theorem get_order_stats_counts :
  forall (mongo_sum : list float -> float) (w : World),
    let os := map snd (map_to_list (w_orders w)) in
    exists st, repo_get_order_stats mongo_sum w = (Ok st, w)
      /\ total_orders st = Z.of_nat (length os)
      /\ pending_orders st = count_status os PENDING
      /\ confirmed_orders st = count_status os CONFIRMED
      /\ processing_orders st = count_status os PROCESSING
      /\ shipped_orders st = count_status os SHIPPED
      /\ delivered_orders st = count_status os DELIVERED
      /\ cancelled_orders st = count_status os CANCELLED
      /\ total_orders st = pending_orders st + confirmed_orders st + processing_orders st
                           + shipped_orders st + delivered_orders st + cancelled_orders st
                           + count_status os REFUNDED
      /\ (os = [] -> average_order_value st = zero)
      /\ (os <> [] -> average_order_value st
                      = py_round2 (fdiv (mongo_sum (map total_amount os)) (of_Z (Z.of_nat (length os))))).
Proof.
  intros mongo_sum w os.
  destruct (stats_fold_counts mongo_sum os) as (H1 & H2 & H3 & H4 & H5 & H6 & H7 & H8).
  pose proof (count_status_partition os) as Hp.
  unfold repo_get_order_stats. fold os.
  set (st := fold_left stats_step (group_by_status mongo_sum os) stats0) in *.
  clearbody st os. destruct os as [|o os']; cbn [length] in *.
  - simpl in H1. replace (0 <? total_orders st) with false by (symmetry; apply Z.ltb_ge; lia).
    eexists. split; [reflexivity|]. repeat split; try lia; try congruence.
  - replace (0 <? total_orders st) with true by (symmetry; apply Z.ltb_lt; simpl in H1; lia).
    eexists. split; [reflexivity|].
    cbn [total_orders pending_orders confirmed_orders processing_orders shipped_orders
         delivered_orders cancelled_orders average_order_value].
    repeat split; try lia; try congruence.
Qed.


(** ** Product service: updates, soft deletes and search *)






(** X11: [ProductService.delete_product] raises 404 for a missing product; otherwise it marks the product inactive, after which [get_product_by_id] raises 404 while the record, its stock, SKU and price stay stored, a second delete succeeds again, and [update_stock] still applies to it. *)
Theorem delete_product_soft :
  forall (st : ProductSvc.PState) (pid : string),
    (ProductSvc.products st !! pid = None ->
       ProductSvc.delete_product st pid
       = (Raise (HTTPException HTTP_404_NOT_FOUND "Product not found"), st))
    /\ (forall p, ProductSvc.products st !! pid = Some p ->
          exists st', ProductSvc.delete_product st pid = (Ok "Product deleted successfully", st')
            /\ ProductSvc.get_product_by_id st' pid
               = Raise (HTTPException HTTP_404_NOT_FOUND "Product not found")
            /\ (exists p', ProductSvc.products st' !! pid = Some p'
                  /\ ProductSvc.is_active p' = false
                  /\ ProductSvc.stock_quantity p' = ProductSvc.stock_quantity p
                  /\ ProductSvc.sku p' = ProductSvc.sku p
                  /\ ProductSvc.price p' = ProductSvc.price p)
            /\ fst (ProductSvc.delete_product st' pid) = Ok "Product deleted successfully"
            /\ (forall dq, 0 <= ProductSvc.stock_quantity p + dq ->
                  exists p'', fst (ProductSvc.update_stock st' pid dq) = Ok p''
                              /\ ProductSvc.is_active p'' = false)).
Proof.
  intros st pid. unfold ProductSvc.delete_product, ProductSvc.repo_delete_product.
  split; [intros Ho; rewrite Ho; reflexivity|].
  intros p Ho. rewrite Ho. simpl. eexists. split; [reflexivity|].
  unfold ProductSvc.get_product_by_id, ProductSvc.update_stock, ProductSvc.repo_update_stock.
  simpl. rewrite lookup_insert_eq. simpl.
  split; [reflexivity|]. split; [eexists; repeat split; reflexivity|].
  split; [reflexivity|].
  intros dq Hdq. replace (ProductSvc.stock_quantity p + dq <? 0) with false by lia.
  eexists. split; reflexivity.
Qed.


Lemma get_category_by_name_none (st : ProductSvc.PState) n :
  ProductSvc.get_category_by_name st n = None ->
  forall k c, ProductSvc.categories st !! k = Some c -> ProductSvc.cat_name c <> n.
Proof.
  unfold ProductSvc.get_category_by_name. intros H k c Hk Hn.
  destruct (List.find _ _) as [q|] eqn:Hf; [discriminate|].
  apply elem_of_map_to_list, list_elem_of_In in Hk.
  pose proof (find_none _ _ Hf _ Hk) as Hc. simpl in Hc.
  apply String.eqb_neq in Hc. contradiction.
Qed.

Lemma get_category_by_name_some (st : ProductSvc.PState) k c :
  ProductSvc.categories st !! k = Some c ->
  exists c', ProductSvc.get_category_by_name st (ProductSvc.cat_name c) = Some c'.
Proof.
  intros Hk. destruct (ProductSvc.get_category_by_name st (ProductSvc.cat_name c)) as [c'|] eqn:Hg;
    [eauto|].
  exfalso. exact (get_category_by_name_none st _ Hg k c Hk eq_refl).
Qed.

(** X12: [CategoryService.delete_category] raises 404 for a missing category; otherwise the category stays retrievable by id, inactive and with its name, the products are untouched, and creating a category with that name is refused with 400. *)
Theorem delete_category_soft :
  forall (st : ProductSvc.PState) (cid : string),
    (ProductSvc.categories st !! cid = None ->
       ProductSvc.delete_category st cid
       = (Raise (HTTPException HTTP_404_NOT_FOUND "Category not found"), st))
    /\ (forall c, ProductSvc.categories st !! cid = Some c ->
          exists st', ProductSvc.delete_category st cid = (Ok "Category deleted successfully", st')
            /\ (exists c', ProductSvc.get_category_by_id st' cid = Ok c'
                  /\ ProductSvc.cat_is_active c' = false
                  /\ ProductSvc.cat_name c' = ProductSvc.cat_name c)
            /\ ProductSvc.products st' = ProductSvc.products st
            /\ (forall d, ProductSvc.cc_name d = ProductSvc.cat_name c ->
                  ProductSvc.create_category st' d
                  = (Raise (HTTPException HTTP_400_BAD_REQUEST
                              "Category with this name already exists"), st'))).
Proof.
  intros st cid. unfold ProductSvc.delete_category, ProductSvc.repo_delete_category.
  split; [intros Ho; rewrite Ho; reflexivity|].
  intros c Ho. rewrite Ho. simpl. eexists. split; [reflexivity|].
  unfold ProductSvc.get_category_by_id. simpl. rewrite lookup_insert_eq.
  split; [eexists; repeat split; reflexivity|]. split; [reflexivity|].
  intros d Hd. unfold ProductSvc.create_category. rewrite Hd.
  match goal with |- context [ProductSvc.get_category_by_name ?st1 _] =>
    destruct (get_category_by_name_some st1 cid
                {| ProductSvc.cat_name := ProductSvc.cat_name c;
                   ProductSvc.cat_description := ProductSvc.cat_description c;
                   ProductSvc.cat_is_active := false;
                   ProductSvc.cat_created_at := ProductSvc.cat_created_at c;
                   ProductSvc.cat_updated_at := ProductSvc.p_clock st |}) as [c' Hc'] end.
  - simpl. apply lookup_insert_eq.
  - simpl in Hc'. rewrite Hc'. reflexivity.
Qed.






(** ** User service: login, profile, password and soft delete *)

Lemma get_user_by_email_some (st : UserSvc.UState) e uid u :
  UserSvc.get_user_by_email st e = Some (uid, u) ->
  UserSvc.users st !! uid = Some u /\ UserSvc.email u = e.
Proof.
  unfold UserSvc.get_user_by_email. intros H. apply find_some in H as [Hin Hf].
  simpl in Hf. apply String.eqb_eq in Hf. split; [|exact Hf].
  apply elem_of_map_to_list, list_elem_of_In. exact Hin.
Qed.

Lemma get_user_by_email_none (st : UserSvc.UState) e :
  UserSvc.get_user_by_email st e = None ->
  forall k v, UserSvc.users st !! k = Some v -> UserSvc.email v <> e.
Proof.
  unfold UserSvc.get_user_by_email. intros H k v Hk He.
  apply elem_of_map_to_list, list_elem_of_In in Hk.
  pose proof (find_none _ _ H _ Hk) as Hc. simpl in Hc. apply String.eqb_neq in Hc. contradiction.
Qed.

Lemma get_user_by_email_unique (st : UserSvc.UState) e uid u :
  UserSvc.users st !! uid = Some u -> UserSvc.email u = e ->
  (forall k v, UserSvc.users st !! k = Some v -> UserSvc.email v = e -> k = uid) ->
  UserSvc.get_user_by_email st e = Some (uid, u).
Proof.
  intros Hu He Huniq.
  destruct (UserSvc.get_user_by_email st e) as [[k v]|] eqn:Hg.
  - destruct (get_user_by_email_some st e k v Hg) as [Hk Hv].
    pose proof (Huniq k v Hk Hv) as ->. congruence.
  - exfalso. exact (get_user_by_email_none st e Hg uid u Hu He).
Qed.

Lemma user_exists_spec (st : UserSvc.UState) e :
  UserSvc.user_exists st e = true <-> exists k v, UserSvc.users st !! k = Some v /\ UserSvc.email v = e.
Proof.
  unfold UserSvc.user_exists. rewrite existsb_exists. split.
  - intros ([k v] & Hin & Hf). simpl in Hf. apply String.eqb_eq in Hf.
    exists k, v. split; [|exact Hf]. apply elem_of_map_to_list, list_elem_of_In. exact Hin.
  - intros (k & v & Hk & Hv). exists (k, v). split.
    + apply list_elem_of_In, elem_of_map_to_list. exact Hk.
    + simpl. apply String.eqb_eq. exact Hv.
Qed.


Lemma register_user_ok (hash_password : string -> string) (st st' : UserSvc.UState)
    (d : UserSvc.UserCreate) (u : UserSvc.User) :
  UserSvc.register_user hash_password st d = (Ok u, st') ->
  UserSvc.user_exists st (UserSvc.uc_email d) = false
  /\ UserSvc.users st' = <[("oid" ++ pretty (Npos (UserSvc.u_next_id st)))%string := u]> (UserSvc.users st)
  /\ UserSvc.email u = UserSvc.uc_email d /\ UserSvc.u_is_active u = true
  /\ UserSvc.password_hash u = hash_password (UserSvc.uc_password d).
Proof.
  unfold UserSvc.register_user.
  destruct (UserSvc.user_exists st (UserSvc.uc_email d)) eqn:Hex; [discriminate|].
  intros H. injection H as <- <-. repeat split; reflexivity.
Qed.

(** X15: After a successful [register_user], logging in with the same email and password succeeds, returns the new user with a bearer token, and [get_user_profile] returns that user, provided the password checks against its own hash. *)
Theorem register_then_login :
  forall (hash_password : string -> string) (verify_password : string -> string -> bool)
         (create_access_token : string -> string -> string) (st st' : UserSvc.UState)
         (d : UserSvc.UserCreate) (u : UserSvc.User),
    UserSvc.register_user hash_password st d = (Ok u, st') ->
    verify_password (UserSvc.uc_password d) (hash_password (UserSvc.uc_password d)) = true ->
    let uid := ("oid" ++ pretty (Npos (UserSvc.u_next_id st)))%string in
    UserSvc.authenticate_user verify_password st' (UserSvc.uc_email d) (UserSvc.uc_password d)
      = Some (uid, u)
    /\ UserSvc.login_user verify_password create_access_token st' (UserSvc.uc_email d)
         (UserSvc.uc_password d)
       = Ok {| UserSvc.access_token := create_access_token uid (UserSvc.uc_email d);
               UserSvc.token_type := "bearer"; UserSvc.lr_user := (uid, u) |}
    /\ UserSvc.get_user_profile st' uid = Ok u.
Proof.
  intros hash verify tok st st' d u Hreg Hver uid.
  destruct (register_user_ok hash st st' d u Hreg) as (Hex & Hus & He & Ha & Hp).
  assert (Hg : UserSvc.get_user_by_email st' (UserSvc.uc_email d) = Some (uid, u)).
  { apply get_user_by_email_unique; [rewrite Hus; apply lookup_insert_eq | exact He |].
    intros k v Hk Hv. rewrite Hus in Hk.
    destruct (decide (uid = k)) as [->|Hne]; [reflexivity|].
    rewrite lookup_insert_ne in Hk by exact Hne. exfalso.
    assert (Hc : UserSvc.user_exists st (UserSvc.uc_email d) = true)
      by (apply user_exists_spec; eauto).
    congruence. }
  unfold UserSvc.login_user, UserSvc.authenticate_user, UserSvc.get_user_profile.
  rewrite Hg, Ha, Hp, Hver. simpl. rewrite Hus, lookup_insert_eq, Ha. simpl. rewrite He.
  split; [reflexivity|]. split; reflexivity.
Qed.

(** X16: [UserService.login_user] raises the same 401 "Incorrect email or password" for an unknown email, an inactive user and a wrong password, and raises nothing else. *)
Theorem login_failure_uniform :
  forall (verify_password : string -> string -> bool)
         (create_access_token : string -> string -> string) (st : UserSvc.UState) (e pw : string),
    (UserSvc.login_user verify_password create_access_token st e pw
       = Raise (HTTPException HTTP_401_UNAUTHORIZED "Incorrect email or password")
     <-> UserSvc.get_user_by_email st e = None
         \/ exists uid u, UserSvc.get_user_by_email st e = Some (uid, u)
              /\ (UserSvc.u_is_active u = false \/ verify_password pw (UserSvc.password_hash u) = false))
    /\ (forall exc, UserSvc.login_user verify_password create_access_token st e pw = Raise exc ->
          exc = HTTPException HTTP_401_UNAUTHORIZED "Incorrect email or password").
Proof.
  intros verify tok st e pw.
  unfold UserSvc.login_user, UserSvc.authenticate_user.
  destruct (UserSvc.get_user_by_email st e) as [[uid u]|].
  - destruct (UserSvc.u_is_active u) eqn:Ha; simpl.
    + destruct (verify pw (UserSvc.password_hash u)) eqn:Hv; simpl.
      * split; [|discriminate]. split; [discriminate|].
        intros [H|(uid' & u' & H & [H'|H'])]; [discriminate | |]; injection H as <- <-; congruence.
      * split; [|congruence]. split; [intros _; right; eauto | reflexivity].
    + split; [|congruence]. split; [intros _; right; eauto | reflexivity].
  - split; [|congruence]. split; [intros _; left; reflexivity | reflexivity].
Qed.



Lemma get_user_by_email_replace (st st' : UserSvc.UState) uid u u' :
  emails_unique (UserSvc.users st) -> UserSvc.users st !! uid = Some u ->
  UserSvc.users st' = <[uid := u']> (UserSvc.users st) -> UserSvc.email u' = UserSvc.email u ->
  UserSvc.get_user_by_email st' (UserSvc.email u) = Some (uid, u').
Proof.
  intros Hu Hk Hs He. apply get_user_by_email_unique; [rewrite Hs; apply lookup_insert_eq | exact He |].
  intros k v Hv E. rewrite Hs in Hv.
  destruct (decide (uid = k)) as [->|Hne]; [reflexivity|].
  rewrite lookup_insert_ne in Hv by exact Hne. exact (Hu k uid v u Hv Hk E).
Qed.

(** X18: For a stored active user, [update_user_password] with a wrong current password raises 400 and changes nothing; with the right one it stores the hash of the new password, keeps the email, name and active flag, and afterwards the new password authenticates and any password not matching the new hash does not. *)
Theorem update_user_password_effect :
  forall (hash_password : string -> string) (verify_password : string -> string -> bool)
         (st : UserSvc.UState) (user_id : string) (d : UserSvc.UserPasswordUpdate) (u : UserSvc.User),
    emails_unique (UserSvc.users st) ->
    UserSvc.users st !! user_id = Some u -> UserSvc.u_is_active u = true ->
    (verify_password (UserSvc.current_password d) (UserSvc.password_hash u) = false ->
       UserSvc.update_user_password hash_password verify_password st user_id d
       = (Raise (HTTPException HTTP_400_BAD_REQUEST "Current password is incorrect"), st))
    /\ (verify_password (UserSvc.current_password d) (UserSvc.password_hash u) = true ->
        exists st' u',
          UserSvc.update_user_password hash_password verify_password st user_id d
            = (Ok "Password updated successfully", st')
          /\ UserSvc.users st' = <[user_id := u']> (UserSvc.users st)
          /\ UserSvc.password_hash u' = hash_password (UserSvc.new_password d)
          /\ UserSvc.email u' = UserSvc.email u /\ UserSvc.u_name u' = UserSvc.u_name u
          /\ UserSvc.u_is_active u' = true
          /\ (verify_password (UserSvc.new_password d) (hash_password (UserSvc.new_password d)) = true ->
              UserSvc.authenticate_user verify_password st' (UserSvc.email u) (UserSvc.new_password d)
                = Some (user_id, u'))
          /\ (forall pw, verify_password pw (hash_password (UserSvc.new_password d)) = false ->
              UserSvc.authenticate_user verify_password st' (UserSvc.email u) pw = None)).
Proof.
  intros hash verify st uid d u Hu Hk Ha. unfold UserSvc.update_user_password.
  rewrite Hk, Ha. simpl. split.
  - intros Hv. rewrite Hv. reflexivity.
  - intros Hv. rewrite Hv. simpl. unfold UserSvc.repo_update_user. rewrite Hk. simpl.
    eexists _, _. split; [reflexivity|]. split; [reflexivity|].
    split; [reflexivity|]. split; [reflexivity|]. split; [reflexivity|]. split; [exact Ha|].
    unfold UserSvc.authenticate_user.
    erewrite get_user_by_email_replace; [| exact Hu | exact Hk | reflexivity | reflexivity].
    simpl. rewrite Ha. simpl. split.
    + intros Hn. rewrite Hn. reflexivity.
    + intros pw Hn. rewrite Hn. reflexivity.
Qed.

(** X19: [UserRepository.delete_user] returns False and changes nothing for a missing user; otherwise the user stays stored but inactive, [get_user_profile] raises 404, registering the same email is refused with 400, and with unique emails authentication by that email fails. *)
Theorem delete_user_soft :
  forall (st : UserSvc.UState) (user_id : string),
    (UserSvc.users st !! user_id = None -> UserSvc.delete_user st user_id = (false, st))
    /\ (forall u, UserSvc.users st !! user_id = Some u ->
        let st' := snd (UserSvc.delete_user st user_id) in
        fst (UserSvc.delete_user st user_id) = true
        /\ UserSvc.get_user_profile st' user_id = Raise (HTTPException HTTP_404_NOT_FOUND "User not found")
        /\ (exists u', UserSvc.users st' !! user_id = Some u' /\ UserSvc.email u' = UserSvc.email u
                       /\ UserSvc.password_hash u' = UserSvc.password_hash u
                       /\ UserSvc.u_is_active u' = false)
        /\ (forall hash_password d, UserSvc.uc_email d = UserSvc.email u ->
              UserSvc.register_user hash_password st' d
              = (Raise (HTTPException HTTP_400_BAD_REQUEST "User with this email already exists"), st'))
        /\ (forall verify_password pw, emails_unique (UserSvc.users st) ->
              UserSvc.authenticate_user verify_password st' (UserSvc.email u) pw = None)).
Proof.
  intros st uid. unfold UserSvc.delete_user. split.
  - intros Hk. rewrite Hk. reflexivity.
  - intros u Hk; cbv zeta. rewrite Hk. simpl. split; [reflexivity|].
    split; [unfold UserSvc.get_user_profile; simpl; rewrite lookup_insert_eq; reflexivity|].
    split; [eexists; split; [apply lookup_insert_eq | repeat split]|].
    split.
    + intros hash d Hd. unfold UserSvc.register_user.
      match goal with |- (if ?b then _ else _) = _ => assert (Hb : b = true) end.
      { apply user_exists_spec. eexists uid, _. simpl. split; [apply lookup_insert_eq|]. simpl. congruence. }
      rewrite Hb. reflexivity.
    + intros verify pw Hu. unfold UserSvc.authenticate_user.
      erewrite get_user_by_email_replace; [| exact Hu | exact Hk | reflexivity | reflexivity].
      reflexivity.
Qed.

(** ** Witnesses of the properties of the remaining service functions *)

Lemma emails_unique_singleton (k : string) (u : UserSvc.User) : emails_unique {[k := u]}.
Proof.
  intros k1 k2 u1 u2 H1 H2 _.
  apply lookup_singleton_Some in H1 as [<- _]. apply lookup_singleton_Some in H2 as [<- _].
  reflexivity.
Qed.

Lemma update_payment_status_events_witness :
  w_orders w_demo !! "oid1" = Some order_demo
  /\ exists e,
       w_events (snd (update_payment_status (with_transport env_A true true (fun _ _ _ => Sent)) "oid1"
                        {| pu_payment_status := PAID; pu_payment_method := None;
                           pu_payment_transaction_id := Some "tx1" |} w_demo))
       = w_events w_demo ++ [e]
       /\ ev_topic e = "order-events" /\ ev_key e = Some "oid1"
       /\ dget (event_data e) "event_type" = JStr "order.payment_completed".
Proof.
  split; [reflexivity|].
  destruct (update_payment_status_events env_A (fun _ _ _ => Sent) "oid1"
              {| pu_payment_status := PAID; pu_payment_method := None;
                 pu_payment_transaction_id := Some "tx1" |} w_demo order_demo eq_refl
              (fun _ _ _ => eq_refl)) as (e & H1 & H2 & H3 & H4 & _).
  exists e. split; [exact H1|]. split; [exact H2|]. split; [exact H3 | exact H4].
Defined.

Lemma get_user_orders_page_witness :
  verify_user_token env_A "tok" = Some ui1
  /\ exists resp, get_user_orders env_A "tok" None 1 10 w_demo = (Ok resp, w_demo)
       /\ ol_total resp = 1 /\ ol_total_pages resp = 1
       /\ Sorted created_desc (ol_orders resp).
Proof.
  split; [reflexivity|].
  destruct (get_user_orders_page env_A "tok" None 1 10 w_demo ui1 eq_refl ltac:(lia) ltac:(lia)
              ltac:(discriminate)) as (resp & E & Ht & _ & Hs & _ & Hb).
  assert (Ht1 : ol_total resp = 1) by (rewrite Ht; vm_compute; reflexivity).
  exists resp. split; [exact E|]. split; [exact Ht1|]. split; [nia | exact Hs].
Defined.


Lemma get_user_orders_invalid_token_witness :
  verify_user_token env_A "bad" = None
  /\ snd (get_user_orders env_A "bad" None 1 10 w_demo) = w_demo
  /\ exists msg, fst (get_user_orders env_A "bad" None 1 10 w_demo) = Raise (PyError msg).
Proof.
  split; [reflexivity|].
  destruct (get_user_orders_invalid_token env_A "bad" None 1 10 w_demo eq_refl) as (H1 & H2 & _).
  split; [exact H1 | exact H2].
Defined.




Lemma register_then_login_witness :
  exists u st', UserSvc.register_user hash_demo ustate0 alice = (Ok u, st')
    /\ verify_demo (UserSvc.uc_password alice) (hash_demo (UserSvc.uc_password alice)) = true
    /\ UserSvc.authenticate_user verify_demo st' "alice@example.com" "password1" = Some ("oid1", u)
    /\ UserSvc.get_user_profile st' "oid1" = Ok u.
Proof.
  destruct (UserSvc.register_user hash_demo ustate0 alice) as [r st'] eqn:E.
  destruct r as [u|e]; [|discriminate E].
  assert (Hv : verify_demo (UserSvc.uc_password alice) (hash_demo (UserSvc.uc_password alice)) = true)
    by reflexivity.
  destruct (register_then_login hash_demo verify_demo token_demo ustate0 st' alice u E Hv)
    as (H1 & _ & H3).
  exists u, st'. split; [reflexivity|]. split; [exact Hv|]. split; [exact H1 | exact H3].
Defined.


Lemma update_user_password_effect_witness :
  emails_unique (UserSvc.users ustate1)
  /\ UserSvc.users ustate1 !! "u1" = Some alice_user /\ UserSvc.u_is_active alice_user = true
  /\ UserSvc.update_user_password hash_demo verify_demo ustate1 "u1"
       {| UserSvc.current_password := "wrong"; UserSvc.new_password := "newpass" |}
     = (Raise (HTTPException HTTP_400_BAD_REQUEST "Current password is incorrect"), ustate1)
  /\ exists st', UserSvc.update_user_password hash_demo verify_demo ustate1 "u1"
                   {| UserSvc.current_password := "password1"; UserSvc.new_password := "newpass" |}
                 = (Ok "Password updated successfully", st')
       /\ UserSvc.authenticate_user verify_demo st' "alice@example.com" "newpass" <> None
       /\ UserSvc.authenticate_user verify_demo st' "alice@example.com" "password1" = None.
Proof.
  pose proof (emails_unique_singleton "u1" alice_user) as H.
  split; [exact H|]. split; [reflexivity|]. split; [reflexivity|].
  destruct (update_user_password_effect hash_demo verify_demo ustate1 "u1"
              {| UserSvc.current_password := "wrong"; UserSvc.new_password := "newpass" |}
              alice_user H eq_refl eq_refl) as [Hbad _].
  split; [exact (Hbad eq_refl)|].
  destruct (update_user_password_effect hash_demo verify_demo ustate1 "u1"
              {| UserSvc.current_password := "password1"; UserSvc.new_password := "newpass" |}
              alice_user H eq_refl eq_refl) as [_ Hgood].
  destruct (Hgood eq_refl) as (st' & u' & E & _ & _ & _ & _ & _ & Hnew & Hold).
  exists st'. split; [exact E|]. split.
  - intros Hc. pose proof (Hnew eq_refl) as Hn.
    cbn [alice_user UserSvc.email UserSvc.new_password] in Hn. rewrite Hc in Hn. discriminate Hn.
  - exact (Hold "password1" eq_refl).

Defined.
